(** * myauth: auto-login handler and local-system authenticator

    A shallow embedding of [myauth/myauth.py].  The plugin is glue code
    over a host framework (JupyterHub) and the operating system, so the
    embedding is a state-and-exception monad over a world made of
    - the operating system (password and group databases, files, child
      processes),
    - the host framework's own state (user records, cookies), and
    - the trace of the outward calls the plugin makes.

    The operating system and the host framework are parameters of the
    development: every theorem holds for every behaviour they may have. *)

From Stdlib Require Import ZArith String Ascii List Permutation.
From stdpp Require Import base decidable list gmap sets strings.

Local Open Scope string_scope.
Local Open Scope list_scope.

(** ** Python strings *)

Module PyStr.

(** The line feed, Python's ['\n']. *)
Definition LF : ascii := Ascii.ascii_of_nat 10.
Definition nl : string := String LF EmptyString.

(** The carriage return and the NUL character. *)
Definition CR : ascii := Ascii.ascii_of_nat 13.
Definition NUL : ascii := Ascii.ascii_of_nat 0.

(** What reading in text mode makes of the characters of a file
    ([open(path, "r")], universal newlines): a carriage return with the
    line feed after it, and a carriage return alone, become one line
    feed. *)
Fixpoint universal_newlines (s : string) : string :=
  match s with
  | EmptyString => EmptyString
  | String c s' =>
      if Ascii.eqb c CR then
        String LF
          match s' with
          | EmptyString => EmptyString
          | String c' s'' =>
              if Ascii.eqb c' LF then universal_newlines s''
              else universal_newlines s'
          end
      else String c (universal_newlines s')
  end.

(** The token made of two double-quote characters, the argument the
    Linux template gives to [--gecos]. *)
Definition DQUOTE : ascii := Ascii.ascii_of_nat 34.
Definition two_dquotes : string := String DQUOTE (String DQUOTE EmptyString).

(** [replace_from old new skip s]: the left-to-right scan of
    [str.replace] for a non-empty [old]; [skip] counts the characters of
    a match that are still to be passed over. *)
Fixpoint replace_from (old new : string) (skip : nat) (s : string) : string :=
  match s with
  | EmptyString => EmptyString
  | String c s' =>
      match skip with
      | S k => replace_from old new k s'
      | O =>
          if String.prefix old s
          then new +:+ replace_from old new (String.length old - 1) s'
          else String c (replace_from old new 0 s')
      end
  end.

(** For the empty pattern Python inserts [new] before every character
    and at the end. *)
Fixpoint intersperse_all (new s : string) : string :=
  match s with
  | EmptyString => new
  | String c s' => new +:+ String c (intersperse_all new s')
  end.

(** [s.replace(old, new)] *)
Definition replace (old new s : string) : string :=
  match old with
  | EmptyString => intersperse_all new s
  | String _ _ => replace_from old new 0 s
  end.

(** [sep.join(l)] *)
Fixpoint join (sep : string) (l : list string) : string :=
  match l with
  | [] => EmptyString
  | [x] => x
  | x :: l' => x +:+ sep +:+ join sep l'
  end.

(** [x in s] for strings: [x] occurs in [s] as a substring. *)
Definition occurs_in (x s : string) : Prop :=
  ∃ pre post, s = pre +:+ x +:+ post.

(** [drop n s]: [s[n:]] *)
Fixpoint drop (n : nat) (s : string) : string :=
  match n, s with
  | O, _ => s
  | S _, EmptyString => EmptyString
  | S k, String _ s' => drop k s'
  end.

(** [s] with every occurrence of the character [c] deleted. *)
Fixpoint delete_char (c : ascii) (s : string) : string :=
  match s with
  | EmptyString => EmptyString
  | String a s' =>
      if Ascii.eqb a c then delete_char c s' else String a (delete_char c s')
  end.

(** [c] occurs nowhere in [s]. *)
Fixpoint free_of (c : ascii) (s : string) : bool :=
  match s with
  | EmptyString => true
  | String a s' => negb (Ascii.eqb a c) && free_of c s'
  end.

End PyStr.

(** ** Exceptions, results and the records of the standard library *)

Inductive exn_class : Set :=
  KeyError | ValueError | RuntimeError | OSError | OtherError.

(** A raised exception: its class and its argument. *)
Record exn : Set := Exn { exn_cls : exn_class; exn_arg : string }.

Inductive result (A : Type) : Type :=
| Ok (a : A)
| Raise (e : exn).
Arguments Ok {A} a.
Arguments Raise {A} e.

Inductive log_level : Set := LInfo | LWarning | LError.

(** [pwd.struct_passwd] and [grp.struct_group], the fields the plugin
    can see. *)
Record struct_passwd : Set := { pw_name : string; pw_uid : Z }.
Record struct_group : Set :=
  { gr_name : string; gr_gid : Z; gr_mem : list string }.

Definition exn_class_eqb (a b : exn_class) : bool :=
  match a, b with
  | KeyError, KeyError | ValueError, ValueError | RuntimeError, RuntimeError
  | OSError, OSError | OtherError, OtherError => true
  | _, _ => false
  end.

(** ** The collaborators *)

(** The operating system as the plugin meets it.  [OS] is its state:
    account creation changes it, the lookups read it. *)
Class System (OS : Type) : Type := {
  (** [sys.platform] *)
  sys_platform : string;
  (** [shutil.which(cmd)]: the path of the executable, [None] when there
      is none *)
  which : OS → string → option string;
  (** [pwd.getpwnam(name)]: the entry, or the exception the call
      raises: [KeyError] when there is no entry of that name, another one
      when the name cannot be looked up at all ([ValueError] for a name
      with a NUL character) *)
  getpwnam : OS → string → result struct_passwd;
  (** [grp.getgrnam(name)]: the entry, or the exception the call raises,
      as for [getpwnam] *)
  getgrnam : OS → string → result struct_group;
  (** The characters of a file as they are stored, or the error that
      opening or reading it raises *)
  read_file : OS → string → result string;
  (** [Popen(cmd, stdout=PIPE, stderr=STDOUT)] followed by [wait()]: the
      return code with the text [stdout.read().decode('utf8', 'replace')]
      yields, or the error [Popen] raises; the child may change the
      system *)
  popen_wait : list string → OS → result (Z * string) * OS;
  (** [pipes.quote] *)
  pipes_quote : string → string;
}.

(** [open(path, "r")] followed by [read()]: the characters of the file
    with the newlines of text mode. *)
Definition read_text {OS : Type} `{!System OS} (os : OS) (path : string)
  : result string :=
  match read_file os path with
  | Ok stored => Ok (PyStr.universal_newlines stored)
  | Raise e => Raise e
  end.

(** The host framework: what [BaseHandler] and the base [Authenticator]
    provide.  [Host] is its state, [User] its user records. *)
Class HostFramework (Host User : Type) : Type := {
  (** [user.name] *)
  user_name : User → string;
  (** [jupyterhub.utils.url_path_join] on two pieces *)
  url_path_join : string → string → string;
  (** [BaseHandler.user_from_username] *)
  user_from_username : string → Host → result User * Host;
  (** [BaseHandler.set_login_cookie] *)
  set_login_cookie : User → Host → result unit * Host;
  (** [RequestHandler.redirect] *)
  redirect : string → Host → result unit * Host;
  (** [Authenticator.check_whitelist], from the [whitelist] trait and the
      username *)
  base_check_whitelist : gset string → string → bool;
  (** [Authenticator.add_user] *)
  base_add_user : User → Host → result unit * Host;
}.

(** Python iterates a set in an order of its own: some enumeration of
    the elements, each once. *)
Class SetIteration : Type := {
  set_iter : gset string → list string;
  set_iter_perm : ∀ X, set_iter X ≡ₚ elements X;
}.

(** ** Configuration *)

(** A value of the [Command] trait: a list of strings that is not
    empty (the trait has [minlen=1]). *)
Record Command : Type := { program : string; arguments : list string }.

Definition tokens (cmd : Command) : list string := program cmd :: arguments cmd.

(** The traits of [MyLocalAuthenticator].  [add_user_cmd = None] is the
    trait left unconfigured, so that its default is asked for when the
    trait is read. *)
Record MyLocalAuthenticator : Type := {
  whitelist : gset string;
  create_system_users : bool;
  add_user_cmd : option Command;
  group_whitelist : gset string;
}.

(** [MyLoginHandler], with [self.hub.server.base_url]. *)
Record MyLoginHandler : Type := { hub_server_base_url : string }.

(** ** The world and the monad *)

(** The calls the plugin makes outward, leaving a trace. *)
Inductive event (User : Type) : Type :=
| EvLog (level : log_level) (msg : string)
| EvPopen (cmd : list string)
| EvUserFromUsername (username : string)
| EvSetLoginCookie (user : User)
| EvRedirect (url : string)
| EvBaseAddUser (user : User).
Arguments EvLog {User} level msg.
Arguments EvPopen {User} cmd.
Arguments EvUserFromUsername {User} username.
Arguments EvSetLoginCookie {User} user.
Arguments EvRedirect {User} url.
Arguments EvBaseAddUser {User} user.

Record World (OS Host User : Type) : Type := MkWorld {
  w_os : OS;
  w_host : Host;
  w_trace : list (event User);
}.
Arguments MkWorld {OS Host User} w_os w_host w_trace.
Arguments w_os {OS Host User} w.
Arguments w_host {OS Host User} w.
Arguments w_trace {OS Host User} w.

(** A computation: from a world to a result and the world it leaves.  An
    exception keeps the effects made before it. *)
Definition M (OS Host User : Type) (A : Type) : Type :=
  World OS Host User → result A * World OS Host User.

Section Monad.
Context {OS Host User : Type}.
Abbreviation M := (M OS Host User).

Definition ret {A} (a : A) : M A := λ w, (Ok a, w).

(** Sequencing: an exception ends the computation. *)
Definition bind {A B} (k : A → M B) (m : M A) : M B :=
  λ w, match m w with
       | (Ok a, w') => k a w'
       | (Raise e, w') => (Raise e, w')
       end.

#[global] Instance M_ret : MRet M := @ret.
#[global] Instance M_bind : MBind M := @bind.

(** [raise cls(arg)] *)
Definition raise {A} (cls : exn_class) (arg : string) : M A :=
  λ w, (Raise (Exn cls arg), w).

(** [try: body / except cls: handler] *)
Definition try_except {A} (body : M A) (cls : exn_class) (handler : M A) : M A :=
  λ w, match body w with
       | (Ok a, w') => (Ok a, w')
       | (Raise e, w') =>
           if exn_class_eqb (exn_cls e) cls then handler w' else (Raise e, w')
       end.

Definition emit (ev : event User) : M unit :=
  λ w, (Ok tt, MkWorld (w_os w) (w_host w) (w_trace w ++ [ev])).

(** A call that reads the system. *)
Definition ask_os {A} (f : OS → A) : M A := λ w, (Ok (f (w_os w)), w).

(** A call into the system that may change it and may raise. *)
Definition call_os {A} (f : OS → result A * OS) : M A :=
  λ w, let '(r, os') := f (w_os w) in (r, MkWorld os' (w_host w) (w_trace w)).

(** A call into the host framework that may change it and may raise. *)
Definition call_host {A} (f : Host → result A * Host) : M A :=
  λ w, let '(r, h') := f (w_host w) in (r, MkWorld (w_os w) h' (w_trace w)).

(** Lifting a result. *)
Definition of_result {A} (r : result A) : M A := λ w, (r, w).
End Monad.

(** ** The plugin *)

Section Plugin.
Context {OS Host User : Type}.
Context `{Sys : !System OS, Hub : !HostFramework Host User, Iter : !SetIteration}.
Abbreviation M := (M OS Host User).

(** *** [MyLoginHandler] *)

Definition MyLoginHandler_get (self : MyLoginHandler) : M unit :=
  content ← call_os (λ os, (read_text os "auto_login_username.txt", os));
  let username := PyStr.replace PyStr.nl EmptyString content in
  user ← (emit (EvUserFromUsername username);;
          call_host (user_from_username username));
  emit (EvSetLoginCookie user);;
  call_host (set_login_cookie user);;
  let url := url_path_join (hub_server_base_url self) "home" in
  emit (EvRedirect url);;
  call_host (redirect url).

(** *** [MyAuthenticator] *)

Definition login_url (base_url : string) : string :=
  url_path_join base_url "login".

(** *** [MyLocalAuthenticator] *)

(** Python's truth value of what [which] returns. *)
Definition truthy (o : option string) : bool :=
  match o with
  | Some (String _ _) => true
  | Some EmptyString | None => false
  end.

Definition _add_user_cmd_default : M (list string) :=
  if String.eqb sys_platform "darwin" then
    raise ValueError "I don't know how to create users on OS X"
  else
    pw ← ask_os (λ os, which os "pw");
    if truthy pw then
      mret ["pw"; "useradd"; "-m"]
    else
      mret ["adduser"; "-q"; "--gecos"; PyStr.two_dquotes; "--disabled-password"].

(** Reading the trait [self.add_user_cmd]: the configured value, or the
    default when none was configured. *)
Definition get_add_user_cmd (self : MyLocalAuthenticator) : M (list string) :=
  match add_user_cmd self with
  | Some cmd => mret (tokens cmd)
  | None => _add_user_cmd_default
  end.

(** [grp.getgrnam] and [pwd.getpwnam] as the calls that return or
    raise. *)
Definition grp_getgrnam (grnam : string) : M struct_group :=
  r ← ask_os (λ os, getgrnam os grnam);
  of_result r.

Definition pwd_getpwnam (name : string) : M struct_passwd :=
  r ← ask_os (λ os, getpwnam os name);
  of_result r.

(** The [for] loop of [check_group_whitelist] over the groups still to
    visit; [None] from the [try] block is the [continue]. *)
Fixpoint check_group_whitelist_loop (username : string) (grnams : list string)
  : M bool :=
  match grnams with
  | [] => mret false
  | grnam :: rest =>
      found ← try_except
                (group ← grp_getgrnam grnam; mret (Some group))
                KeyError
                (emit (EvLog LError ("No such group: [" +:+ grnam +:+ "]"));;
                 mret None);
      match found with
      | None => check_group_whitelist_loop username rest
      | Some group =>
          if bool_decide (username ∈ gr_mem group) then mret true
          else check_group_whitelist_loop username rest
      end
  end.

Definition check_group_whitelist (self : MyLocalAuthenticator) (username : string)
  : M bool :=
  if bool_decide (group_whitelist self = ∅) then mret false
  else check_group_whitelist_loop username (set_iter (group_whitelist self)).

Definition check_whitelist (self : MyLocalAuthenticator) (username : string)
  : M bool :=
  if negb (bool_decide (group_whitelist self = ∅)) then
    check_group_whitelist self username
  else
    mret (base_check_whitelist (whitelist self) username).

Definition system_user_exists (user : User) : M bool :=
  try_except (pwd_getpwnam (user_name user);; mret true) KeyError (mret false).

Definition add_system_user (self : MyLocalAuthenticator) (user : User) : M unit :=
  let name := user_name user in
  template ← get_add_user_cmd self;
  let cmd := map (PyStr.replace "USERNAME" name) template ++ [name] in
  emit (EvLog LInfo ("Creating user: " +:+ PyStr.join " " (map pipes_quote cmd)));;
  emit (EvPopen cmd);;
  p ← call_os (popen_wait cmd);
  let '(returncode, output) := p in
  if negb (returncode =? 0)%Z then
    raise RuntimeError
      ("Failed to create system user " +:+ name +:+ ": " +:+ output)
  else mret tt.

(** [super().add_user(user)] *)
Definition super_add_user (user : User) : M unit :=
  emit (EvBaseAddUser user);;
  call_host (base_add_user user).

Definition add_user (self : MyLocalAuthenticator) (user : User) : M unit :=
  user_exists ← system_user_exists user;
  (if negb user_exists then
     if create_system_users self then add_system_user self user
     else raise KeyError ("User " +:+ user_name user +:+ " does not exist.")
   else mret tt);;
  super_add_user user.

End Plugin.

(** The same authenticator with another username whitelist. *)
Definition with_whitelist (wl : gset string) (self : MyLocalAuthenticator)
  : MyLocalAuthenticator :=
  {| whitelist := wl;
     create_system_users := create_system_users self;
     add_user_cmd := add_user_cmd self;
     group_whitelist := group_whitelist self |}.

(** ** The specification's reading of the username file *)

(** Following the specification's words, "strip the trailing newline":
    one line feed at the end of the text is removed, nothing else. *)
Fixpoint strip_trailing_newline (s : string) : string :=
  match s with
  | EmptyString => EmptyString
  | String c s' =>
      match s' with
      | EmptyString => if Ascii.eqb c PyStr.LF then EmptyString else s
      | String _ _ => String c (strip_trailing_newline s')
      end
  end.

(** The characters of the file with every line feed and every carriage
    return deleted. *)
Definition without_newlines (stored : string) : string :=
  PyStr.delete_char PyStr.CR (PyStr.delete_char PyStr.LF stored).

(** The usernames the handler asked the host framework to authenticate,
    and the commands the authenticator ran, read off a trace. *)
Definition authenticated_usernames {User} (tr : list (event User)) : list string :=
  omap (λ ev, match ev with EvUserFromUsername n => Some n | _ => None end) tr.

Definition commands_run {User} (tr : list (event User)) : list (list string) :=
  omap (λ ev, match ev with EvPopen cmd => Some cmd | _ => None end) tr.

Definition base_add_user_calls {User} (tr : list (event User)) : list User :=
  omap (λ ev, match ev with EvBaseAddUser u => Some u | _ => None end) tr.


(** ** The specification's reading of the group check *)

Section GroupSpec.
Context {OS : Type} `{!System OS}.

(** Following the specification's words: the group name resolves in
    the group database and the username is in the member list of the
    group. *)
Definition group_admits (os : OS) (username grnam : string) : Prop :=
  ∃ group, getgrnam os grnam = Ok group ∧ username ∈ gr_mem group.

(** The same as a test. *)
Definition group_admitsb (os : OS) (username grnam : string) : bool :=
  match getgrnam os grnam with
  | Ok group => bool_decide (username ∈ gr_mem group)
  | Raise _ => false
  end.

(** The lookup of the name answers: it finds a group or says, with
    [KeyError], that there is none.  It raises nothing else. *)
Definition lookup_answers (os : OS) (grnam : string) : Prop :=
  (∃ group, getgrnam os grnam = Ok group)
  ∨ (∃ msg, getgrnam os grnam = Raise (Exn KeyError msg)).

(** What a visit of the names in this order comes to: True at the
    first group that lists the username, the error of the first lookup
    that raises something else than [KeyError], False at the end of the
    list. *)
Fixpoint visit_outcome (os : OS) (username : string) (grnams : list string)
  : result bool :=
  match grnams with
  | [] => Ok false
  | grnam :: rest =>
      match getgrnam os grnam with
      | Ok group =>
          if bool_decide (username ∈ gr_mem group) then Ok true
          else visit_outcome os username rest
      | Raise e =>
          if exn_class_eqb (exn_cls e) KeyError
          then visit_outcome os username rest
          else Raise e
      end
  end.

(** The names without a group among those the loop visits: all of
    them up to the first group that admits the username, or up to the
    first lookup that raises something else than [KeyError]. *)
Fixpoint unresolved_visited (os : OS) (username : string) (grnams : list string)
  : list string :=
  match grnams with
  | [] => []
  | grnam :: rest =>
      match getgrnam os grnam with
      | Ok group =>
          if bool_decide (username ∈ gr_mem group) then []
          else unresolved_visited os username rest
      | Raise e =>
          if exn_class_eqb (exn_cls e) KeyError
          then grnam :: unresolved_visited os username rest
          else []
      end
  end.
End GroupSpec.

Definition no_such_group {User} (grnam : string) : event User :=
  EvLog LError ("No such group: [" +:+ grnam +:+ "]").

(** ** A small system and host to run the plugin on *)

Module Scenario.

(** A machine: its accounts, its groups with their members, the
    programs on its path, the text of the auto-login file, and what
    the account tool prints when it is made to fail. *)
Record machine : Type := {
  accounts : list string;
  groups : list (string * list string);
  programs : list string;
  login_file : option string;
  tool_failure : option string;
}.

Fixpoint members_of (grnam : string) (db : list (string * list string))
  : option (list string) :=
  match db with
  | [] => None
  | (g, mem) :: db' => if String.eqb g grnam then Some mem else members_of grnam db'
  end.

(** The databases refuse a name with a NUL character before they look
    it up. *)
Definition has_nul (name : string) : bool := negb (PyStr.free_of PyStr.NUL name).

Definition lookup_group (grnam : string) (os : machine) : result struct_group :=
  if has_nul grnam then Raise (Exn ValueError "embedded null byte")
  else
    match members_of grnam (groups os) with
    | Some mem => Ok {| gr_name := grnam; gr_gid := 100; gr_mem := mem |}
    | None => Raise (Exn KeyError ("getgrnam(): name not found: '" +:+ grnam +:+ "'"))
    end.

Definition lookup_account (name : string) (os : machine) : result struct_passwd :=
  if has_nul name then Raise (Exn ValueError "embedded null byte")
  else if bool_decide (name ∈ accounts os)
  then Ok {| pw_name := name; pw_uid := 1000 |}
  else Raise (Exn KeyError ("getpwnam(): name not found: '" +:+ name +:+ "'")).

(** [pipes.quote]: a token of safe characters as it is, any other
    between single quotes. *)
Definition SQUOTE : ascii := Ascii.ascii_of_nat 39.

Definition safe_char (c : ascii) : bool :=
  let n := Ascii.nat_of_ascii c in
  Nat.leb 48 n && Nat.leb n 57 || Nat.leb 65 n && Nat.leb n 90
  || Nat.leb 97 n && Nat.leb n 122
  || bool_decide (c ∈ ["_"; "@"; "%"; "+"; "="; ":"; ","; "."; "/"; "-"]%char).

Fixpoint all_safe (s : string) : bool :=
  match s with
  | EmptyString => true
  | String c s' => safe_char c && all_safe s'
  end.

Definition quote (s : string) : string :=
  match s with
  | EmptyString => String SQUOTE (String SQUOTE EmptyString)
  | String _ _ =>
      if all_safe s then s
      else
        String SQUOTE
          (PyStr.replace (String SQUOTE EmptyString)
             (String SQUOTE (String PyStr.DQUOTE (String SQUOTE
                (String PyStr.DQUOTE (String SQUOTE EmptyString)))))
             s
           +:+ String SQUOTE EmptyString)
  end.

(** [url_path_join] on two pieces: one slash between them, the slash
    at the start of the first and at the end of the last kept. *)
Fixpoint lstrip_slash (s : string) : string :=
  match s with
  | EmptyString => EmptyString
  | String c s' => if Ascii.eqb c "/" then lstrip_slash s' else s
  end.

Fixpoint rstrip_slash (s : string) : string :=
  match s with
  | EmptyString => EmptyString
  | String c s' =>
      match rstrip_slash s' with
      | EmptyString => if Ascii.eqb c "/" then EmptyString else String c EmptyString
      | String _ _ as r => String c r
      end
  end.

Definition strip_slash (s : string) : string := rstrip_slash (lstrip_slash s).

Definition starts_with_slash (s : string) : bool :=
  match s with
  | String c _ => Ascii.eqb c "/"
  | EmptyString => false
  end.

Fixpoint ends_with_slash (s : string) : bool :=
  match s with
  | EmptyString => false
  | String c EmptyString => Ascii.eqb c "/"
  | String _ s' => ends_with_slash s'
  end.

Definition join_url (a b : string) : string :=
  let joined :=
    match strip_slash a, strip_slash b with
    | EmptyString, b' => b'
    | a', EmptyString => a'
    | a', b' => a' +:+ "/" +:+ b'
    end in
  let result :=
    (if starts_with_slash a then "/" else EmptyString) +:+ joined
    +:+ (if ends_with_slash b then "/" else EmptyString) in
  if String.eqb result "//" then "/" else result.

(** The account tool: fails with its message when made to, and
    otherwise creates the account named by its last argument. *)
Definition run (cmd : list string) (os : machine) : result (Z * string) * machine :=
  match cmd with
  | [] => (Raise (Exn OtherError "list index out of range"), os)
  | prog :: args =>
      if bool_decide (prog ∈ programs os) then
        match tool_failure os with
        | Some output => (Ok (1%Z, output), os)
        | None =>
            (Ok (0%Z, EmptyString),
             {| accounts := accounts os ++ [List.last args prog];
                groups := groups os; programs := programs os;
                login_file := login_file os; tool_failure := None |})
        end
      else (Raise (Exn OSError ("No such file or directory: " +:+ prog)), os)
  end.

Definition machine_system (platform : string) : System machine := {|
  sys_platform := platform;
  which := λ os cmd,
    if bool_decide (cmd ∈ programs os) then Some ("/usr/sbin/" +:+ cmd) else None;
  getpwnam := λ os name, lookup_account name os;
  getgrnam := λ os grnam, lookup_group grnam os;
  read_file := λ os path,
    match login_file os with
    | Some text => Ok text
    | None => Raise (Exn OSError ("No such file or directory: " +:+ path))
    end;
  popen_wait := run;
  pipes_quote := quote;
|}.

(** A host whose state is the list of the names it has recorded and
    whose user records are the names themselves. *)
Definition hub : HostFramework (list string) string := {|
  user_name := λ u, u;
  url_path_join := join_url;
  user_from_username := λ n h, (Ok n, h);
  set_login_cookie := λ u h, (Ok tt, h);
  redirect := λ url h, (Ok tt, h);
  base_check_whitelist := λ wl n,
    if bool_decide (wl = ∅) then true else bool_decide (n ∈ wl);
  base_add_user := λ u h, (Ok tt, h ++ [u]);
|}.

(** Two iteration orders for sets. *)
Definition forwards : SetIteration :=
  {| set_iter := elements; set_iter_perm := λ X, reflexivity (elements X) |}.

Definition backwards : SetIteration :=
  {| set_iter := λ X, reverse (elements X);
     set_iter_perm := λ X, reverse_Permutation (elements X) |}.

Definition linux : machine := {|
  accounts := ["root"; "alice"];
  groups := [("staff", ["alice"; "bob"]); ("wheel", ["root"])];
  programs := ["adduser"];
  login_file := Some ("river" +:+ PyStr.nl);
  tool_failure := None;
|}.

Definition with_login_file (text : string) (os : machine) : machine :=
  {| accounts := accounts os; groups := groups os; programs := programs os;
     login_file := Some text; tool_failure := tool_failure os |}.


Definition start (os : machine) : World machine (list string) string :=
  MkWorld os [] [].

Definition authenticator (create : bool) (cmd : option Command)
    (grps : gset string) : MyLocalAuthenticator :=
  {| whitelist := ∅; create_system_users := create;
     add_user_cmd := cmd; group_whitelist := grps |}.

Definition linux_system : System machine := machine_system "linux".
Definition mac_system : System machine := machine_system "darwin".

Definition handler : MyLoginHandler := {| hub_server_base_url := "/hub" |}.

(** A file whose text has a line feed inside the name as well. *)
Definition two_lines : string := "ri" +:+ PyStr.nl +:+ "ver" +:+ PyStr.nl.

(** The name [river] as a line of a file with the line ending of DOS. *)
Definition dos_line : string := "river" +:+ String PyStr.CR PyStr.nl.

(** A name with a NUL character inside. *)
Definition nul_name : string := String "a" (String PyStr.NUL (String "b" EmptyString)).


End Scenario.

(** ** The rest of the authenticator *)

(** What traitlets hands to an observer of [group_whitelist]: the value
    before and the value after. *)
Record trait_change : Type := {
  change_old : gset string;
  change_new : gset string;
}.

Section Observer.
Context {OS Host User : Type}.

(** [_group_whitelist_changed]: [self] is the authenticator once the
    trait has its new value. *)
Definition _group_whitelist_changed (self : MyLocalAuthenticator)
    (change : trait_change) : M OS Host User unit :=
  if negb (bool_decide (whitelist self = ∅)) then
    emit (EvLog LWarning
            "Ignoring username whitelist because group whitelist supplied!")
  else mret tt.

End Observer.

(** The list [add_system_user] hands to [Popen]. *)
Definition creation_command (template : list string) (name : string) : list string :=
  map (PyStr.replace "USERNAME" name) template ++ [name].

(** The world [add_system_user] leaves once the child has been waited
    for: the system the child left, the host as it was, and the trace
    with the log line and the command. *)
Definition after_creation_attempt {OS Host User} `{!System OS}
    (w : World OS Host User) (template : list string) (name : string) (os' : OS)
  : World OS Host User :=
  MkWorld os' (w_host w)
    (w_trace w ++
       [EvLog LInfo
          ("Creating user: " +:+
             PyStr.join " " (map pipes_quote (creation_command template name)));
        EvPopen (creation_command template name)]).

(** [x in s] for strings, as a test: [x] is a prefix of [s] or occurs
    further on. *)
Fixpoint occursb (x s : string) : bool :=
  String.prefix x s ||
  match s with
  | EmptyString => false
  | String _ s' => occursb x s'
  end.

(** The text holds line feeds only. *)
Fixpoint only_newlines (s : string) : bool :=
  match s with
  | EmptyString => true
  | String c s' => Ascii.eqb c PyStr.LF && only_newlines s'
  end.

(** The group database has no group of that name: the lookup raises
    [KeyError]. *)
Definition unresolvable {OS} `{!System OS} (os : OS) (grnam : string) : bool :=
  match getgrnam os grnam with
  | Ok _ => false
  | Raise e => exn_class_eqb (exn_cls e) KeyError
  end.

(** ** The specification's reading of the substitution *)

(** Following the specification's words, "[USERNAME] replaced by the
    literal username in every template token": the token is made of
    pieces without [USERNAME] with [USERNAME] between them, and the new
    token of the same pieces with the username between them. *)
Definition substituted (name token token' : string) : Prop :=
  ∃ pieces,
    Forall (λ piece, occursb "USERNAME" piece = false) pieces
    ∧ token = PyStr.join "USERNAME" pieces
    ∧ token' = PyStr.join name pieces.

(** ** A host that can be made to fail *)

Module Faults.

(** The host of [Scenario], refusing the names listed: the lookup of a
    user, the cookie, or the base [add_user]. *)
Definition hub (no_lookup no_cookie no_add : list string)
  : HostFramework (list string) string := {|
  user_name := λ u, u;
  url_path_join := Scenario.join_url;
  user_from_username := λ n h,
    if bool_decide (n ∈ no_lookup)
    then (Raise (Exn OtherError ("no user " +:+ n)), h) else (Ok n, h);
  set_login_cookie := λ u h,
    if bool_decide (u ∈ no_cookie)
    then (Raise (Exn OtherError ("no cookie for " +:+ u)), h) else (Ok tt, h);
  redirect := λ url h, (Ok tt, h);
  base_check_whitelist := λ wl n,
    if bool_decide (wl = ∅) then true else bool_decide (n ∈ wl);
  base_add_user := λ u h,
    if bool_decide (u ∈ no_add)
    then (Raise (Exn ValueError ("Invalid username: " +:+ u)), h)
    else (Ok tt, h ++ [u]);
|}.

(** A machine without the auto-login file. *)
Definition without_login_file (os : Scenario.machine) : Scenario.machine :=
  {| Scenario.accounts := Scenario.accounts os;
     Scenario.groups := Scenario.groups os;
     Scenario.programs := Scenario.programs os;
     Scenario.login_file := None;
     Scenario.tool_failure := Scenario.tool_failure os |}.

End Faults.

(** * Properties *)

(** ** Python strings *)

Module PyStrFacts.
Import PyStr.

Lemma append_cons (c : ascii) (s t : string) :
  String c s +:+ t = String c (s +:+ t).
Proof. reflexivity. Qed.

Lemma append_nil_l (s : string) : EmptyString +:+ s = s.
Proof. reflexivity. Qed.

Lemma append_nil_r (s : string) : s +:+ EmptyString = s.
Proof.
  induction s as [|c s IH]; [done |]. by rewrite append_cons, IH.
Qed.


Lemma prefix_nil (s : string) : String.prefix EmptyString s = true.
Proof. by destruct s. Qed.

Lemma prefix_append (old s : string) : String.prefix old (old +:+ s) = true.
Proof.
  induction old as [|c old IH]; [apply prefix_nil |].
  rewrite append_cons. cbn [String.prefix].
  destruct (ascii_dec c c); [exact IH | done].
Qed.

Lemma drop_append (old s : string) : drop (String.length old) (old +:+ s) = s.
Proof.
  induction old as [|c old IH]; [done |].
  rewrite append_cons. exact IH.
Qed.

(** Passing over [k] characters is dropping them. *)
Lemma replace_from_skip (old new : string) (k : nat) (s : string) :
  replace_from old new k s = replace_from old new 0 (drop k s).
Proof.
  revert k; induction s as [|c s IH]; intros [|k]; try done.
  cbn [replace_from drop]. apply IH.
Qed.

(** The three equations of the scan of [replace], for a non-empty
    pattern: the end of the text, a match, and no match. *)
Lemma replace_nil (old new : string) :
  old ≠ EmptyString → replace old new EmptyString = EmptyString.
Proof. by destruct old. Qed.

Lemma replace_match (old new s : string) :
  old ≠ EmptyString →
  replace old new (old +:+ s) = new +:+ replace old new s.
Proof.
  destruct old as [|c old]; [done | intros _].
  unfold replace. rewrite append_cons. cbn [replace_from].
  rewrite <- append_cons, prefix_append. f_equal.
  rewrite replace_from_skip.
  replace (String.length (String c old) - 1) with (String.length old)
    by (cbn [String.length]; lia).
  by rewrite drop_append.
Qed.

Lemma replace_no_match (old new : string) (c : ascii) (s : string) :
  old ≠ EmptyString →
  String.prefix old (String c s) = false →
  replace old new (String c s) = String c (replace old new s).
Proof.
  destruct old as [|a old]; [done | intros _ Hp].
  unfold replace. cbn [replace_from]. by rewrite Hp.
Qed.

(** Deleting line feeds with [replace] deletes every one of them. *)
Lemma replace_nl_delete (s : string) :
  replace nl EmptyString s = delete_char LF s.
Proof.
  induction s as [|c s IH]; [done |].
  destruct (ascii_dec c LF) as [-> | Hne].
  - change (String LF s) with (nl +:+ s).
    rewrite replace_match by done. rewrite append_nil_l, IH.
    unfold nl. rewrite append_cons, append_nil_l.
    cbn [delete_char]. by rewrite Ascii.eqb_refl.
  - rewrite replace_no_match; [| done |].
    + cbn [delete_char]. apply Ascii.eqb_neq in Hne. by rewrite Hne, IH.
    + unfold nl. cbn [String.prefix].
      destruct (ascii_dec LF c); [congruence | done].
Qed.

Lemma delete_char_free (c : ascii) (s : string) :
  free_of c (delete_char c s) = true.
Proof.
  induction s as [|a s IH]; [done |]. cbn [delete_char].
  destruct (Ascii.eqb a c) eqn:E; [done |]. cbn [free_of]. by rewrite E.
Qed.

Lemma delete_char_id (c : ascii) (s : string) :
  free_of c s = true → delete_char c s = s.
Proof.
  induction s as [|a s IH]; [done |]. cbn [free_of delete_char].
  destruct (Ascii.eqb a c); [done |].
  intros H. by rewrite IH.
Qed.

Lemma delete_char_append (c : ascii) (s t : string) :
  delete_char c (s +:+ t) = delete_char c s +:+ delete_char c t.
Proof.
  induction s as [|a s IH]; [done |]. rewrite append_cons.
  cbn [delete_char]. destruct (Ascii.eqb a c); [done |].
  by rewrite append_cons, IH.
Qed.

(** A username without a line feed comes back from the file whether
    or not a line feed follows it. *)
Lemma delete_char_written (U : string) :
  free_of LF U = true →
  delete_char LF U = U ∧ delete_char LF (U +:+ nl) = U.
Proof.
  intros H. split; [by apply delete_char_id |].
  rewrite delete_char_append, delete_char_id by done.
  change (delete_char LF nl) with EmptyString. apply append_nil_r.
Qed.



End PyStrFacts.

(** ** The monad *)

Ltac unfold_m :=
  unfold mbind, M_bind, bind, mret, M_ret, ret, raise, try_except, emit,
    ask_os, call_os, call_host, of_result in *.

Section MonadFacts.
Context {OS Host User : Type}.
Implicit Types w : World OS Host User.

Lemma world_eta w : MkWorld (w_os w) (w_host w) (w_trace w) = w.
Proof. by destruct w. Qed.

Lemma bind_ok {A B} (m : M OS Host User A) (k : A → M OS Host User B) w a w' :
  m w = (Ok a, w') → (m ≫= k) w = k a w'.
Proof. intros H. unfold_m. by rewrite H. Qed.

Lemma bind_raise {A B} (m : M OS Host User A) (k : A → M OS Host User B) w e w' :
  m w = (Raise e, w') → (m ≫= k) w = (Raise e, w').
Proof. intros H. unfold_m. by rewrite H. Qed.

Lemma omap_snoc_none {A B} (f : A → option B) (l : list A) (x : A) :
  f x = None → omap f (l ++ [x]) = omap f l.
Proof. intros H. rewrite omap_app. simpl. rewrite H. apply app_nil_r. Qed.
End MonadFacts.

(** ** The auto-login handler *)

Section LoginHandler.
Context {OS Host User : Type}.
Context `{Sys : !System OS, Hub : !HostFramework Host User}.
Implicit Types w : World OS Host User.

Lemma delete_char_cons_eq (c : ascii) (s : string) :
  PyStr.delete_char c (String c s) = PyStr.delete_char c s.
Proof. cbn [PyStr.delete_char]. by rewrite Ascii.eqb_refl. Qed.

Lemma delete_char_cons_ne (c a : ascii) (s : string) :
  a ≠ c → PyStr.delete_char c (String a s) = String a (PyStr.delete_char c s).
Proof. intros Hne%Ascii.eqb_neq. cbn [PyStr.delete_char]. by rewrite Hne. Qed.

(** The equations of text mode. *)
Lemma universal_newlines_crlf (s : string) :
  PyStr.universal_newlines (String PyStr.CR (String PyStr.LF s))
  = String PyStr.LF (PyStr.universal_newlines s).
Proof. reflexivity. Qed.

Lemma universal_newlines_cr (c : ascii) (s : string) :
  c ≠ PyStr.LF →
  PyStr.universal_newlines (String PyStr.CR (String c s))
  = String PyStr.LF (PyStr.universal_newlines (String c s)).
Proof.
  intros Hne%Ascii.eqb_neq.
  change (PyStr.universal_newlines (String PyStr.CR (String c s)))
    with (String PyStr.LF
            (if Ascii.eqb c PyStr.LF then PyStr.universal_newlines s
             else PyStr.universal_newlines (String c s))).
  by rewrite Hne.
Qed.

Lemma universal_newlines_other (c : ascii) (s : string) :
  c ≠ PyStr.CR →
  PyStr.universal_newlines (String c s) = String c (PyStr.universal_newlines s).
Proof.
  intros Hne%Ascii.eqb_neq. cbn [PyStr.universal_newlines]. by rewrite Hne.
Qed.

(** Reading in text mode and deleting the line feeds deletes the
    line feeds and the carriage returns of the file. *)
Lemma delete_universal_newlines (n : nat) (stored : string) :
  (String.length stored ≤ n)%nat →
  PyStr.delete_char PyStr.LF (PyStr.universal_newlines stored)
  = without_newlines stored.
Proof.
  unfold without_newlines. revert stored.
  induction n as [| n IH]; intros [| c s] Hlen; try done;
    cbn [String.length] in Hlen; [lia |].
  assert (PyStr.CR ≠ PyStr.LF) as Hcrlf by done.
  destruct (ascii_dec c PyStr.CR) as [-> | Hcr].
  - rewrite (delete_char_cons_ne PyStr.LF PyStr.CR) by done.
    rewrite delete_char_cons_eq.
    destruct s as [| c' s']; [done |].
    cbn [String.length] in Hlen.
    destruct (ascii_dec c' PyStr.LF) as [-> | Hlf].
    + rewrite universal_newlines_crlf, !delete_char_cons_eq. apply IH. lia.
    + rewrite universal_newlines_cr, delete_char_cons_eq by done.
      apply IH. cbn [String.length]. lia.
  - rewrite universal_newlines_other by done.
    destruct (ascii_dec c PyStr.LF) as [-> | Hlf].
    + rewrite !delete_char_cons_eq. apply IH. lia.
    + rewrite !(delete_char_cons_ne PyStr.LF c) by done.
      rewrite (delete_char_cons_ne PyStr.CR c) by done.
      f_equal. apply IH. lia.
Qed.

Lemma get_username_of_file (stored : string) :
  PyStr.replace PyStr.nl EmptyString (PyStr.universal_newlines stored)
  = without_newlines stored.
Proof.
  rewrite PyStrFacts.replace_nl_delete.
  by apply (delete_universal_newlines (String.length stored)).
Qed.

(** A username without newline characters comes back from the file
    whatever newline follows it there. *)
Lemma without_newlines_written (U ending : string) :
  PyStr.free_of PyStr.LF U = true →
  PyStr.free_of PyStr.CR U = true →
  without_newlines ending = EmptyString →
  without_newlines (U +:+ ending) = U.
Proof.
  unfold without_newlines. intros Hlf Hcr Hend.
  rewrite !PyStrFacts.delete_char_append, Hend.
  rewrite (PyStrFacts.delete_char_id PyStr.LF U) by done.
  rewrite (PyStrFacts.delete_char_id PyStr.CR U) by done.
  apply PyStrFacts.append_nil_r.
Qed.

(** C1 (amended).  When the file can be read and the host framework's
    calls succeed, the login handler authenticates exactly the
    characters of the file with every newline character deleted: every
    line feed, not only a trailing one, and every carriage return,
    which reading in text mode turns into a line feed.  It sets the
    login cookie for the user record the host returned, and redirects
    to the hub base URL joined with [home].  Hence a username [U]
    without a line feed and without a carriage return, written with or
    without a newline after it, is authenticated as exactly [U]. *)
Theorem login_authenticates_file_username
    (self : MyLoginHandler) w (stored : string) (u : User) (h1 h2 h3 : Host) :
  read_file (w_os w) "auto_login_username.txt" = Ok stored →
  user_from_username (without_newlines stored) (w_host w) = (Ok u, h1) →
  set_login_cookie u h1 = (Ok tt, h2) →
  redirect (url_path_join (hub_server_base_url self) "home") h2 = (Ok tt, h3) →
  MyLoginHandler_get self w =
    (Ok tt,
     MkWorld (w_os w) h3
       (w_trace w ++
          [EvUserFromUsername (without_newlines stored);
           EvSetLoginCookie u;
           EvRedirect (url_path_join (hub_server_base_url self) "home")]))
  ∧ authenticated_usernames
      (w_trace (MyLoginHandler_get self w).2)
    = authenticated_usernames (w_trace w) ++ [without_newlines stored]
  ∧ (∀ U, PyStr.free_of PyStr.LF U = true →
          PyStr.free_of PyStr.CR U = true →
          stored = U
          ∨ stored = U +:+ PyStr.nl
          ∨ stored = U +:+ String PyStr.CR PyStr.nl
          ∨ stored = U +:+ String PyStr.CR EmptyString →
          without_newlines stored = U).
Proof.
  intros Hread Huser Hcookie Hredirect.
  assert (MyLoginHandler_get self w =
    (Ok tt,
     MkWorld (w_os w) h3
       (w_trace w ++
          [EvUserFromUsername (without_newlines stored);
           EvSetLoginCookie u;
           EvRedirect (url_path_join (hub_server_base_url self) "home")])))
    as Hrun.
  { unfold MyLoginHandler_get, read_text. unfold_m.
    rewrite Hread, get_username_of_file. cbn [w_os w_host w_trace].
    rewrite Huser. cbn [w_os w_host w_trace]. rewrite Hcookie.
    cbn [w_os w_host w_trace]. rewrite Hredirect.
    by rewrite <- !app_assoc. }
  split; [exact Hrun |]. split.
  - rewrite Hrun. unfold authenticated_usernames. cbn. by rewrite omap_app.
  - intros U Hlf Hcr [-> | [-> | [-> | ->]]].
    + rewrite <- (PyStrFacts.append_nil_r U) at 1.
      by apply without_newlines_written.
    + by apply without_newlines_written.
    + by apply without_newlines_written.
    + by apply without_newlines_written.
Qed.

End LoginHandler.

(** The file holds [river], a carriage return and a line feed. *)
Lemma login_authenticates_file_username_witness :
  @read_file _ Scenario.linux_system
    (w_os (Scenario.start (Scenario.with_login_file Scenario.dos_line Scenario.linux)))
    "auto_login_username.txt"
    = Ok ("river" +:+ String PyStr.CR PyStr.nl)
  ∧ @MyLoginHandler_get _ _ _ Scenario.linux_system Scenario.hub
      Scenario.handler
      (Scenario.start (Scenario.with_login_file Scenario.dos_line Scenario.linux))
    = (Ok tt,
       MkWorld (Scenario.with_login_file Scenario.dos_line Scenario.linux) []
         [EvUserFromUsername "river"; EvSetLoginCookie "river";
          EvRedirect "/hub/home"]).
Proof.
  split; [reflexivity |].
  apply (@login_authenticates_file_username _ _ _
           Scenario.linux_system Scenario.hub
           Scenario.handler
           (Scenario.start (Scenario.with_login_file Scenario.dos_line Scenario.linux))
           ("river" +:+ String PyStr.CR PyStr.nl) "river" [] [] []); reflexivity.
Defined.

(** Against C1 as stated: with line feeds inside the text and at its
    end, the handler authenticates [river], whereas stripping the
    trailing line feed alone leaves the inner one in place. *)
Lemma login_deletes_inner_newlines :
  authenticated_usernames
    (w_trace
       (@MyLoginHandler_get _ _ _ Scenario.linux_system Scenario.hub
          Scenario.handler
          (Scenario.start (Scenario.with_login_file Scenario.two_lines Scenario.linux))).2)
    = ["river"]
  ∧ strip_trailing_newline Scenario.two_lines = "ri" +:+ PyStr.nl +:+ "ver"
  ∧ authenticated_usernames
      (w_trace
         (@MyLoginHandler_get _ _ _ Scenario.linux_system Scenario.hub
            Scenario.handler
            (Scenario.start (Scenario.with_login_file Scenario.two_lines Scenario.linux))).2)
    ≠ [strip_trailing_newline Scenario.two_lines].
Proof.
  split; [reflexivity |]. split; [reflexivity |].
  vm_compute. discriminate.
Qed.

(** ** The allow-list checks *)

Section Whitelist.
Context {OS Host User : Type}.
Context `{Sys : !System OS, Hub : !HostFramework Host User}.
Implicit Types w : World OS Host User.
Implicit Types self : MyLocalAuthenticator.

Lemma group_admitsb_spec (os : OS) (username grnam : string) :
  group_admitsb os username grnam = true ↔ group_admits os username grnam.
Proof.
  unfold group_admitsb, group_admits.
  destruct (getgrnam os grnam) as [group | e]; split.
  - intros H%bool_decide_eq_true. eauto.
  - intros (g & [= <-] & Hin). by apply bool_decide_eq_true.
  - done.
  - by intros (g & ? & _).
Qed.

Lemma some_group_admits (os : OS) (username : string) (grnams : list string) :
  existsb (group_admitsb os username) grnams = true
  ↔ ∃ grnam, grnam ∈ grnams ∧ group_admits os username grnam.
Proof.
  rewrite existsb_exists. split; intros (g & Hin & Had); exists g.
  - by rewrite list_elem_of_In, <- group_admitsb_spec.
  - by rewrite <- list_elem_of_In, group_admitsb_spec.
Qed.

(** The answer does not depend on the order of the names. *)
Lemma some_group_admits_perm (os : OS) (username : string) (l1 l2 : list string) :
  l1 ≡ₚ l2 →
  existsb (group_admitsb os username) l1 = existsb (group_admitsb os username) l2.
Proof.
  intros Hp. apply eq_true_iff_eq. rewrite !some_group_admits.
  by setoid_rewrite Hp.
Qed.

(** What the loop does: its outcome is the one of the visit, and it
    logs the unresolved names it has visited. *)
Lemma check_group_whitelist_loop_run (username : string) (grnams : list string) w :
  check_group_whitelist_loop username grnams w =
    (visit_outcome (w_os w) username grnams,
     MkWorld (w_os w) (w_host w)
       (w_trace w ++ map no_such_group (unresolved_visited (w_os w) username grnams))).
Proof.
  revert w. induction grnams as [| grnam rest IH]; intros w.
  - cbn. unfold_m. by rewrite app_nil_r, world_eta.
  - cbn [check_group_whitelist_loop visit_outcome unresolved_visited].
    unfold grp_getgrnam. unfold_m.
    destruct (getgrnam (w_os w) grnam) as [group | e] eqn:Hg.
    + destruct (bool_decide (username ∈ gr_mem group)); cbn [map].
      * by rewrite app_nil_r, world_eta.
      * apply IH.
    + destruct (exn_class_eqb (exn_cls e) KeyError); simpl.
      * rewrite IH. simpl. by rewrite <- app_assoc.
      * by rewrite app_nil_r, world_eta.
Qed.

(** A visit whose lookups all answer comes to the test of the names. *)
Lemma visit_outcome_answers (os : OS) (username : string) (grnams : list string) :
  (∀ g, g ∈ grnams → lookup_answers os g) →
  visit_outcome os username grnams = Ok (existsb (group_admitsb os username) grnams).
Proof.
  induction grnams as [| grnam rest IH]; intros Hans; [done |].
  cbn [visit_outcome existsb]. unfold group_admitsb at 1.
  assert (visit_outcome os username rest
          = Ok (existsb (group_admitsb os username) rest)) as Hrest.
  { apply IH. intros g Hin. apply Hans. by right. }
  destruct (Hans grnam) as [[group Hg] | [msg Hg]]; [by left | |]; rewrite Hg.
  - by destruct (bool_decide (username ∈ gr_mem group)).
  - done.
Qed.

(** A visit that comes to True has met a group that lists the
    username. *)
Lemma visit_outcome_true (os : OS) (username : string) (grnams : list string) :
  visit_outcome os username grnams = Ok true →
  ∃ grnam, grnam ∈ grnams ∧ group_admits os username grnam.
Proof.
  induction grnams as [| grnam rest IH]; [done |]. cbn [visit_outcome].
  destruct (getgrnam os grnam) as [group | e] eqn:Hg.
  - case_bool_decide as Hmem.
    + intros _. exists grnam. split; [by left |]. by exists group.
    + intros (g & Hin & Had)%IH. exists g. split; [by right | done].
  - destruct (exn_class_eqb (exn_cls e) KeyError); [| done].
    intros (g & Hin & Had)%IH. exists g. split; [by right | done].
Qed.

(** A visit that comes to False has looked every name up, with an
    answer, and no group lists the username. *)
Lemma visit_outcome_false (os : OS) (username : string) (grnams : list string) :
  visit_outcome os username grnams = Ok false →
  ∀ g, g ∈ grnams → lookup_answers os g ∧ ¬ group_admits os username g.
Proof.
  induction grnams as [| grnam rest IH]; cbn [visit_outcome].
  { intros _ g Hin. by apply elem_of_nil in Hin. }
  destruct (getgrnam os grnam) as [group | [cls msg]] eqn:Hg.
  - case_bool_decide as Hmem; [done |].
    intros Hrest g [-> | Hin]%elem_of_cons; [| by apply IH].
    split; [left; by exists group |].
    intros (group' & Hg' & Hmem'). congruence.
  - destruct cls; cbn [exn_cls exn_class_eqb]; try done.
    intros Hrest g [-> | Hin]%elem_of_cons; [| by apply IH].
    split; [right; by exists msg |].
    intros (group' & Hg' & _). congruence.
Qed.

Context `{Iter : !SetIteration}.

Lemma set_iter_empty : set_iter ∅ = [].
Proof.
  apply Permutation_nil_r. rewrite set_iter_perm. by rewrite elements_empty.
Qed.

Lemma elem_of_set_iter (X : gset string) (x : string) :
  x ∈ set_iter X ↔ x ∈ X.
Proof. by rewrite set_iter_perm, elem_of_elements. Qed.

Lemma check_group_whitelist_run self (username : string) w :
  check_group_whitelist self username w =
    (visit_outcome (w_os w) username (set_iter (group_whitelist self)),
     MkWorld (w_os w) (w_host w)
       (w_trace w ++
          map no_such_group
            (unresolved_visited (w_os w) username (set_iter (group_whitelist self))))).
Proof.
  unfold check_group_whitelist. case_bool_decide as He.
  - rewrite He, set_iter_empty. cbn. unfold_m. by rewrite app_nil_r, world_eta.
  - apply check_group_whitelist_loop_run.
Qed.

(** With lookups that all answer, the check returns the test of the
    configured names. *)
Lemma check_group_whitelist_answers self (username : string) w :
  (∀ g, g ∈ group_whitelist self → lookup_answers (w_os w) g) →
  check_group_whitelist self username w =
    (Ok (existsb (group_admitsb (w_os w) username) (set_iter (group_whitelist self))),
     MkWorld (w_os w) (w_host w)
       (w_trace w ++
          map no_such_group
            (unresolved_visited (w_os w) username (set_iter (group_whitelist self))))).
Proof.
  intros Hans. rewrite check_group_whitelist_run, visit_outcome_answers; [done |].
  intros g Hin. by apply Hans, elem_of_set_iter.
Qed.

(** C2.  Group list dominance: with a non-empty [group_whitelist],
    [check_whitelist] is [check_group_whitelist], whatever the username
    whitelist holds; with an empty one it returns the answer of the
    base framework's check on the username whitelist. *)
Theorem check_whitelist_group_dominance self (wl : gset string) (username : string) w :
  (group_whitelist self ≠ ∅ →
     check_whitelist (with_whitelist wl self) username w
     = check_group_whitelist self username w)
  ∧ (group_whitelist self = ∅ →
     check_whitelist (with_whitelist wl self) username w
     = (Ok (base_check_whitelist wl username), w)).
Proof.
  unfold check_whitelist, check_group_whitelist. cbn [with_whitelist group_whitelist whitelist].
  split; intros Hgw; case_bool_decide; done.
Qed.




End Whitelist.

Section IterationOrder.
Context {OS Host User : Type}.
Context `{!System OS}.
Implicit Types w : World OS Host User.

(** C10 (amended).  For every two iteration orders of the configured
    set, over the same group database: when [check_group_whitelist]
    returns under both, it returns the same boolean; and when the lookup
    of every configured name answers, it returns under both, with the
    same boolean. *)
Theorem check_group_whitelist_order_independent
    (I1 I2 : SetIteration) (self : MyLocalAuthenticator) (username : string) w :
  (∀ b1 b2,
     (check_group_whitelist (Iter := I1) self username w).1 = Ok b1 →
     (check_group_whitelist (Iter := I2) self username w).1 = Ok b2 →
     b1 = b2)
  ∧ ((∀ g, g ∈ group_whitelist self → lookup_answers (w_os w) g) →
     ∃ b,
       (check_group_whitelist (Iter := I1) self username w).1 = Ok b
       ∧ (check_group_whitelist (Iter := I2) self username w).1 = Ok b).
Proof.
  assert (set_iter (SetIteration := I1) (group_whitelist self)
          ≡ₚ set_iter (SetIteration := I2) (group_whitelist self)) as Hperm
    by (by rewrite !set_iter_perm).
  split.
  - rewrite !check_group_whitelist_run. cbn [fst].
    assert (∀ l1 l2 : list string, l1 ≡ₚ l2 →
              visit_outcome (w_os w) username l1 = Ok true →
              visit_outcome (w_os w) username l2 = Ok false → False) as Hclash.
    { intros l1 l2 Hp (g & Hin & Had)%visit_outcome_true Hfalse.
      rewrite Hp in Hin. by destruct (visit_outcome_false _ _ _ Hfalse g Hin). }
    intros [] [] H1 H2; try done; exfalso.
    + by eapply (Hclash _ _ Hperm).
    + symmetry in Hperm. by eapply (Hclash _ _ Hperm).
  - intros Hans. eexists.
    rewrite !check_group_whitelist_answers by done. cbn [fst].
    split; [reflexivity |]. f_equal. by apply some_group_admits_perm.
Qed.
End IterationOrder.

(** ** The substitution of [USERNAME] *)

Section Substitution.
Import PyStr.




Lemma occursb_cons_false (old : string) (c : ascii) (s : string) :
  occursb old (String c s) = false →
  String.prefix old (String c s) = false ∧ occursb old s = false.
Proof. cbn [occursb]. by intros [? ?]%orb_false_elim. Qed.

(** A text without the pattern is left as it is. *)
Lemma replace_free (old new s : string) :
  old ≠ EmptyString → occursb old s = false → replace old new s = s.
Proof.
  intros Hold. induction s as [| c s IH]; intros Hfree.
  - by apply PyStrFacts.replace_nil.
  - apply occursb_cons_false in Hfree as [Hp Hs].
    rewrite PyStrFacts.replace_no_match by done. by rewrite IH.
Qed.

(** A pattern whose first character does not come back in it cannot
    start inside the text before one of its occurrences. *)
Lemma prefix_mismatch_extend (c : ascii) (q p t : string) :
  free_of c q = true →
  String.prefix q p = false →
  String.prefix q (p +:+ String c t) = false.
Proof.
  revert p. induction q as [| a q IH]; intros p Hq Hp.
  - by rewrite PyStrFacts.prefix_nil in Hp.
  - cbn [free_of] in Hq. apply andb_prop in Hq as [Ha Hq].
    destruct p as [| b p].
    + rewrite PyStrFacts.append_nil_l. cbn [String.prefix].
      destruct (ascii_dec a c) as [-> | _]; [| done].
      by rewrite Ascii.eqb_refl in Ha.
    + rewrite PyStrFacts.append_cons. cbn [String.prefix] in *.
      destruct (ascii_dec a b); [by apply IH | done].
Qed.

Lemma no_match_before_occurrence (c : ascii) (old p r : string) :
  free_of c old = true →
  p ≠ EmptyString →
  String.prefix (String c old) p = false →
  String.prefix (String c old) (p +:+ String c old +:+ r) = false.
Proof.
  intros Hold Hne Hp. destruct p as [| b p]; [done |].
  rewrite PyStrFacts.append_cons. cbn [String.prefix] in *.
  destruct (ascii_dec c b); [| done].
  change (String c old +:+ r) with (String c (old +:+ r)).
  by apply prefix_mismatch_extend.
Qed.

(** The scan passes over a piece without the pattern and replaces the
    occurrence after it. *)
Lemma replace_piece (c : ascii) (old new p r : string) :
  free_of c old = true →
  occursb (String c old) p = false →
  replace (String c old) new (p +:+ String c old +:+ r)
  = p +:+ new +:+ replace (String c old) new r.
Proof.
  intros Hold. induction p as [| b p IH]; intros Hfree.
  - rewrite !PyStrFacts.append_nil_l. by apply PyStrFacts.replace_match.
  - apply occursb_cons_false in Hfree as [Hp Hs].
    rewrite !(PyStrFacts.append_cons b p).
    rewrite PyStrFacts.replace_no_match.
    + f_equal. by apply IH.
    + done.
    + rewrite <- (PyStrFacts.append_cons b p).
      by apply no_match_before_occurrence.
Qed.

(** Replacing the pattern in pieces joined by it joins the pieces by
    the new text. *)
Lemma replace_join (c : ascii) (old new : string) (pieces : list string) :
  free_of c old = true →
  Forall (λ piece, occursb (String c old) piece = false) pieces →
  replace (String c old) new (join (String c old) pieces) = join new pieces.
Proof.
  intros Hold. induction pieces as [| x [| y rest] IH]; intros Hfree.
  - done.
  - cbn [join]. apply replace_free; [done |]. by inversion Hfree.
  - change (join (String c old) (x :: y :: rest))
      with (x +:+ String c old +:+ join (String c old) (y :: rest)).
    change (join new (x :: y :: rest)) with (x +:+ new +:+ join new (y :: rest)).
    inversion Hfree as [| ? ? Hx Hrest]; subst.
    rewrite replace_piece by done. by rewrite IH.
Qed.




(** And the specification determines the new token. *)
Lemma substituted_unique (name token t1 t2 : string) :
  substituted name token t1 → substituted name token t2 → t1 = t2.
Proof.
  assert (∀ t, substituted name token t → t = replace "USERNAME" name token) as Hfun.
  { intros t (pieces & Hfree & -> & ->). symmetry.
    by apply (replace_join "U" "SERNAME"). }
  intros H1%Hfun H2%Hfun. congruence.
Qed.


End Substitution.

(** ** The new-user hook *)

Section AddUser.
Context {OS Host User : Type}.
Context `{Sys : !System OS, Hub : !HostFramework Host User}.
Implicit Types w : World OS Host User.
Implicit Types self : MyLocalAuthenticator.

Lemma system_user_exists_run (user : User) w :
  system_user_exists user w
  = (match getpwnam (w_os w) (user_name user) with
     | Ok _ => Ok true
     | Raise e => if exn_class_eqb (exn_cls e) KeyError then Ok false else Raise e
     end, w).
Proof.
  unfold system_user_exists, pwd_getpwnam. unfold_m.
  destruct (getpwnam (w_os w) (user_name user)) as [entry | e]; [done |].
  by destruct (exn_class_eqb (exn_cls e) KeyError).
Qed.

Lemma super_add_user_run (user : User) w :
  super_add_user user w
  = ((base_add_user user (w_host w)).1,
     MkWorld (w_os w) (base_add_user user (w_host w)).2
       (w_trace w ++ [EvBaseAddUser user])).
Proof.
  unfold super_add_user. unfold_m. simpl.
  by destruct (base_add_user user (w_host w)).
Qed.

(** With an account, the hook is the delegation alone. *)
Lemma add_user_present self (user : User) w (entry : struct_passwd) :
  getpwnam (w_os w) (user_name user) = Ok entry →
  add_user self user w = super_add_user user w.
Proof.
  intros Hsome. unfold add_user.
  rewrite (bind_ok _ _ w true w).
  - unfold_m. done.
  - by rewrite system_user_exists_run, Hsome.
Qed.

(** Without one, it is the creation or the rejection, and the
    delegation after a creation that returned. *)
Lemma add_user_absent self (user : User) w (msg : string) :
  getpwnam (w_os w) (user_name user) = Raise (Exn KeyError msg) →
  add_user self user w =
    if create_system_users self then
      (add_system_user self user;; super_add_user user) w
    else
      (Raise (Exn KeyError ("User " +:+ user_name user +:+ " does not exist.")), w).
Proof.
  intros Hnone. unfold add_user.
  rewrite (bind_ok _ _ w false w).
  - destruct (create_system_users self); [done |]. by unfold_m.
  - by rewrite system_user_exists_run, Hnone.
Qed.

(** A lookup that raises something else than [KeyError] ends the
    hook at once. *)
Lemma add_user_lookup_fails self (user : User) w (e : exn) :
  getpwnam (w_os w) (user_name user) = Raise e →
  exn_cls e ≠ KeyError →
  add_user self user w = (Raise e, w).
Proof.
  intros Hfail Hcls. unfold add_user. apply bind_raise.
  rewrite system_user_exists_run, Hfail.
  destruct e as [[] msg]; cbn [exn_cls exn_class_eqb] in *; done.
Qed.

(** The run of [add_system_user] once the command template is read
    and the child has exited. *)
Lemma add_system_user_run self (user : User) w
    (template : list string) (returncode : Z) (output : string) (os' : OS) :
  get_add_user_cmd self w = (Ok template, w) →
  popen_wait
    (map (PyStr.replace "USERNAME" (user_name user)) template ++ [user_name user])
    (w_os w) = (Ok (returncode, output), os') →
  add_system_user self user w =
    ((if (returncode =? 0)%Z then Ok tt
      else Raise (Exn RuntimeError
                    ("Failed to create system user " +:+ user_name user
                       +:+ ": " +:+ output))),
     MkWorld os' (w_host w)
       (w_trace w ++
          [EvLog LInfo
             ("Creating user: " +:+
                PyStr.join " "
                  (map pipes_quote
                     (map (PyStr.replace "USERNAME" (user_name user)) template
                        ++ [user_name user])));
           EvPopen
             (map (PyStr.replace "USERNAME" (user_name user)) template
                ++ [user_name user])])).
Proof.
  intros Hcmd Hrun. unfold add_system_user.
  rewrite (bind_ok _ _ w template w Hcmd).
  unfold_m. cbn [w_os w_host w_trace]. rewrite Hrun.
  rewrite <- app_assoc. cbn [app].
  by destruct (returncode =? 0)%Z.
Qed.

(** The failing creation, as [add_user] sees it. *)
Lemma add_user_creation_fails self (user : User) w (msg : string)
    (template : list string) (returncode : Z) (output : string) (os' : OS) :
  getpwnam (w_os w) (user_name user) = Raise (Exn KeyError msg) →
  create_system_users self = true →
  get_add_user_cmd self w = (Ok template, w) →
  popen_wait
    (map (PyStr.replace "USERNAME" (user_name user)) template ++ [user_name user])
    (w_os w) = (Ok (returncode, output), os') →
  returncode ≠ 0%Z →
  ∃ e,
    add_user self user w =
      (Raise e,
       MkWorld os' (w_host w)
         (w_trace w ++
            [EvLog LInfo
               ("Creating user: " +:+
                  PyStr.join " "
                    (map pipes_quote
                       (map (PyStr.replace "USERNAME" (user_name user)) template
                          ++ [user_name user])));
             EvPopen
               (map (PyStr.replace "USERNAME" (user_name user)) template
                  ++ [user_name user])])).
Proof.
  intros Hnone Hcreate Hcmd Hrun Hrc.
  pose proof (add_system_user_run self user w _ _ _ _ Hcmd Hrun) as Hsys.
  apply Z.eqb_neq in Hrc. rewrite Hrc in Hsys.
  eexists. rewrite (add_user_absent _ _ _ _ Hnone), Hcreate.
  by rewrite (bind_raise _ _ _ _ _ Hsys).
Qed.


(** C5 (amended).  For a user for whom the lookup in the password
    database raises, and with [create_system_users] off, [add_user]
    fails and leaves the world as it was: no command is run, the system
    and the host are unchanged.  The error is the [KeyError] saying that
    the user does not exist when the lookup raised [KeyError] (there is
    no such account), and the error of the lookup itself when it raised
    something else. *)
Theorem add_user_rejects_missing_account self (user : User) w (e : exn) :
  getpwnam (w_os w) (user_name user) = Raise e →
  create_system_users self = false →
  add_user self user w
  = (Raise (if exn_class_eqb (exn_cls e) KeyError
            then Exn KeyError ("User " +:+ user_name user +:+ " does not exist.")
            else e),
     w).
Proof.
  intros Hnone Hcreate.
  destruct (exn_class_eqb (exn_cls e) KeyError) eqn:Hcls.
  - destruct e as [[] msg]; cbn [exn_cls exn_class_eqb] in Hcls; try done.
    by rewrite (add_user_absent _ _ _ _ Hnone), Hcreate.
  - apply add_user_lookup_fails; [done |]. intros Heq. by rewrite Heq in Hcls.
Qed.

(** C6.  For a user with an account, [add_user] is the base
    framework's [add_user] and nothing else: its outcome is the
    base's, the system is unchanged and no command is run. *)
Theorem add_user_existing_account self (user : User) w (entry : struct_passwd) :
  getpwnam (w_os w) (user_name user) = Ok entry →
  add_user self user w = super_add_user user w
  ∧ add_user self user w
    = ((base_add_user user (w_host w)).1,
       MkWorld (w_os w) (base_add_user user (w_host w)).2
         (w_trace w ++ [EvBaseAddUser user]))
  ∧ commands_run (w_trace (add_user self user w).2) = commands_run (w_trace w).
Proof.
  intros Hsome.
  assert (add_user self user w = super_add_user user w) as Hadd
    by (by eapply add_user_present).
  split; [exact Hadd |]. rewrite Hadd, super_add_user_run.
  split; [done |]. cbn [snd w_trace]. by apply omap_snoc_none.
Qed.

(** C8.  With [add_user_cmd] not configured, reading it gives the
    default: on [darwin] a [ValueError], raised when the trait is first
    read, as in [add_system_user], before anything is run; elsewhere
    the BSD template when [which] finds [pw], and the Linux template
    when it does not. *)
Theorem add_user_cmd_default self w :
  add_user_cmd self = None →
  (sys_platform = "darwin" →
     get_add_user_cmd self w
     = (Raise (Exn ValueError "I don't know how to create users on OS X"), w)
     ∧ ∀ user : User,
         add_system_user self user w
         = (Raise (Exn ValueError "I don't know how to create users on OS X"), w))
  ∧ (sys_platform ≠ "darwin" →
     ∀ path, which (w_os w) "pw" = Some path → path ≠ EmptyString →
       get_add_user_cmd self w = (Ok ["pw"; "useradd"; "-m"], w))
  ∧ (sys_platform ≠ "darwin" →
     which (w_os w) "pw" = None →
       get_add_user_cmd self w
       = (Ok ["adduser"; "-q"; "--gecos"; PyStr.two_dquotes; "--disabled-password"],
          w)).
Proof.
  intros Hunset. unfold get_add_user_cmd. rewrite Hunset.
  unfold _add_user_cmd_default. split; [| split].
  - intros Hdarwin.
    assert (get_add_user_cmd self w
            = (Raise (Exn ValueError "I don't know how to create users on OS X"), w))
      as Hget.
    { unfold get_add_user_cmd. rewrite Hunset. unfold _add_user_cmd_default.
      by rewrite Hdarwin. }
    split.
    + by rewrite Hdarwin.
    + intros user. unfold add_system_user. by apply bind_raise.
  - intros Hother path Hpw Hpath.
    apply String.eqb_neq in Hother. rewrite Hother.
    unfold_m. cbn. rewrite Hpw. by destruct path.
  - intros Hother Hpw.
    apply String.eqb_neq in Hother. rewrite Hother.
    unfold_m. cbn. by rewrite Hpw.
Qed.

(** C9.  When [add_user] fails because the account is missing with
    creation off, or because the creation command exited with a code
    other than 0, the base framework's [add_user] is not called: the
    trace gains no such call and the host's state is the one before. *)
Theorem add_user_failure_skips_base self (user : User) w (e0 : exn) :
  getpwnam (w_os w) (user_name user) = Raise e0 →
  create_system_users self = false
  ∨ (create_system_users self = true
     ∧ ∃ template returncode output os',
         get_add_user_cmd self w = (Ok template, w)
         ∧ popen_wait
             (map (PyStr.replace "USERNAME" (user_name user)) template
                ++ [user_name user])
             (w_os w) = (Ok (returncode, output), os')
         ∧ returncode ≠ 0%Z) →
  ∃ e w',
    add_user self user w = (Raise e, w')
    ∧ w_host w' = w_host w
    ∧ base_add_user_calls (w_trace w') = base_add_user_calls (w_trace w).
Proof.
  intros Hnone Hcase.
  destruct (exn_class_eqb (exn_cls e0) KeyError) eqn:Hcls.
  2:{ eexists _, w. split; [| done]. apply add_user_lookup_fails; [done |].
      intros Heq. by rewrite Heq in Hcls. }
  destruct e0 as [[] msg]; cbn [exn_cls exn_class_eqb] in Hcls; try done.
  destruct Hcase as [Hoff | (Hon & template & rc & output & os' & Hcmd & Hrun & Hrc)].
  - eexists _, w. split; [| done]. by rewrite (add_user_absent _ _ _ _ Hnone), Hoff.
  - destruct (add_user_creation_fails self user w msg template rc output os')
      as (e & Hadd); try done.
    eexists _, _. split; [exact Hadd |]. split; [done |].
    cbn [w_trace]. unfold base_add_user_calls. rewrite omap_app. cbn.
    apply app_nil_r.
Qed.

End AddUser.

(** ** The scenarios of the specification *)

Section Scenarios.
Import Scenario.
#[local] Existing Instances linux_system hub forwards.

Example replace_home_directory :
  PyStr.replace "USERNAME" "river" "/customhome/USERNAME" = "/customhome/river".
Proof. reflexivity. Qed.

Example replace_every_occurrence :
  PyStr.replace "USERNAME" "river" "USERNAME:USERNAMEUSERNAME" = "river:riverriver".
Proof. reflexivity. Qed.

(** [group_whitelist = {staff}] with members [alice] and [bob]. *)
Example staff_admits_alice :
  (check_whitelist (authenticator false None {["staff"]}) "alice" (start linux)).1
  = Ok true.
Proof. vm_compute. reflexivity. Qed.

Example staff_rejects_carol :
  (check_whitelist (authenticator false None {["staff"]}) "carol" (start linux)).1
  = Ok false.
Proof. vm_compute. reflexivity. Qed.

(** The account tool exits with 0: the account is made and the base
    framework records the user. *)
Example river_is_created :
  add_user (authenticator true None ∅) "river" (start linux)
  = (Ok tt,
     MkWorld
       {| accounts := ["root"; "alice"; "river"]; groups := groups linux;
          programs := programs linux; login_file := login_file linux;
          tool_failure := None |}
       ["river"]
       [EvLog LInfo
          ("Creating user: adduser -q --gecos "
             +:+ String SQUOTE (PyStr.two_dquotes +:+ String SQUOTE EmptyString)
             +:+ " --disabled-password river");
        EvPopen ["adduser"; "-q"; "--gecos"; PyStr.two_dquotes;
                 "--disabled-password"; "river"];
        EvBaseAddUser "river"]).
Proof. vm_compute. reflexivity. Qed.

(** The databases of the machine answer for every name without a NUL
    character. *)
Lemma machine_lookup_answers (os : machine) (grnam : string) :
  has_nul grnam = false → lookup_answers os grnam.
Proof.
  intros Hnul. unfold lookup_answers. cbn [getgrnam linux_system machine_system].
  unfold lookup_group. rewrite Hnul.
  destruct (members_of grnam (groups os)); [left | right]; by eexists.
Qed.

Lemma staff_nogroup_answer (g : string) :
  g ∈ ({["staff"; "nogroup"]} : gset string) → lookup_answers linux g.
Proof.
  intros [->%elem_of_singleton | ->%elem_of_singleton]%elem_of_union;
    by apply machine_lookup_answers.
Qed.

Lemma check_whitelist_group_dominance_witness :
  ({["staff"]} : gset string) ≠ ∅
  ∧ check_whitelist
      (with_whitelist {["carol"]} (authenticator false None {["staff"]}))
      "carol" (start linux)
    = check_group_whitelist (authenticator false None {["staff"]})
        "carol" (start linux).
Proof.
  assert (({["staff"]} : gset string) ≠ ∅) as Hne
    by apply non_empty_singleton_L.
  split; [exact Hne |].
  exact (proj1 (check_whitelist_group_dominance
                  (authenticator false None {["staff"]}) {["carol"]}
                  "carol" (start linux)) Hne).
Defined.





Lemma check_group_whitelist_order_independent_witness :
  ∃ b,
    (check_group_whitelist (Iter := forwards)
       (authenticator false None {["staff"; "nogroup"]}) "alice" (start linux)).1
    = Ok b
    ∧ (check_group_whitelist (Iter := backwards)
         (authenticator false None {["staff"; "nogroup"]}) "alice" (start linux)).1
      = Ok b.
Proof.
  exact (proj2 (check_group_whitelist_order_independent forwards backwards
                  (authenticator false None {["staff"; "nogroup"]}) "alice"
                  (start linux)) staff_nogroup_answer).
Defined.

(** Against C10 as stated: with a name holding a NUL character in the
    set, one iteration order returns True and the other raises. *)
Lemma check_group_whitelist_order_matters :
  (check_group_whitelist (Iter := forwards)
     (authenticator false None {["staff"; nul_name]}) "alice" (start linux)).1
  = Ok true
  ∧ (check_group_whitelist (Iter := backwards)
       (authenticator false None {["staff"; nul_name]}) "alice" (start linux)).1
    = Raise (Exn ValueError "embedded null byte")
  ∧ (check_group_whitelist (Iter := forwards)
       (authenticator false None {["staff"; nul_name]}) "alice" (start linux)).1
    ≠ (check_group_whitelist (Iter := backwards)
         (authenticator false None {["staff"; nul_name]}) "alice" (start linux)).1.
Proof.
  split; [vm_compute; reflexivity |]. split; [vm_compute; reflexivity |].
  vm_compute. discriminate.
Qed.



Lemma add_user_rejects_missing_account_witness :
  add_user (authenticator false None ∅) "river" (start linux)
  = (Raise (Exn KeyError ("User " +:+ "river" +:+ " does not exist.")), start linux).
Proof.
  refine (add_user_rejects_missing_account
            (authenticator false None ∅) "river" (start linux)
            (Exn KeyError ("getpwnam(): name not found: '" +:+ "river" +:+ "'"))
            _ _); reflexivity.
Defined.

(** Against C5 as stated: for a user whose name holds a NUL character,
    who has no account, [add_user] with [create_system_users] off does
    not raise the [KeyError] saying that the user does not exist but the
    [ValueError] of the lookup. *)
Lemma add_user_nul_name_other_error :
  (∀ entry, lookup_account nul_name linux ≠ Ok entry)
  ∧ add_user (authenticator false None ∅) nul_name (start linux)
    = (Raise (Exn ValueError "embedded null byte"), start linux)
  ∧ add_user (authenticator false None ∅) nul_name (start linux)
    ≠ (Raise (Exn KeyError ("User " +:+ nul_name +:+ " does not exist.")),
       start linux).
Proof.
  split; [intros entry; vm_compute; discriminate |].
  split; [vm_compute; reflexivity | vm_compute; discriminate].
Qed.

Lemma add_user_existing_account_witness :
  add_user (authenticator true None ∅) "alice" (start linux)
  = (Ok tt, MkWorld linux ["alice"] [EvBaseAddUser "alice"])
  ∧ commands_run
      (w_trace (add_user (authenticator true None ∅) "alice" (start linux)).2)
    = [].
Proof.
  destruct (add_user_existing_account
              (authenticator true None ∅) "alice" (start linux)
              {| pw_name := "alice"; pw_uid := 1000 |})
    as (_ & Hrun & Hcmds); [reflexivity |].
  split; [exact Hrun | exact Hcmds].
Defined.

Lemma add_user_cmd_default_witness :
  get_add_user_cmd (Sys := mac_system) (Host := list string) (User := string)
    (authenticator true None ∅) (start linux)
  = (Raise (Exn ValueError "I don't know how to create users on OS X"),
     start linux)
  ∧ get_add_user_cmd (Sys := linux_system) (Host := list string) (User := string)
      (authenticator true None ∅) (start linux)
    = (Ok ["adduser"; "-q"; "--gecos"; PyStr.two_dquotes; "--disabled-password"],
       start linux).
Proof.
  split.
  - refine (proj1 (proj1 (add_user_cmd_default (Sys := mac_system) (Hub := hub)
                             (authenticator true None ∅) (start linux) _) _));
      reflexivity.
  - refine (proj2 (proj2 (add_user_cmd_default (Sys := linux_system) (Hub := hub)
                             (authenticator true None ∅) (start linux) _)) _ _);
      [reflexivity | discriminate | reflexivity].
Defined.

Lemma add_user_failure_skips_base_witness :
  ∃ e w',
    add_user (authenticator false None ∅) "river" (start linux) = (Raise e, w')
    ∧ w_host w' = []
    ∧ base_add_user_calls (w_trace w') = [].
Proof.
  refine (add_user_failure_skips_base
            (authenticator false None ∅) "river" (start linux)
            (Exn KeyError ("getpwnam(): name not found: '" +:+ "river" +:+ "'"))
            _ _);
    [reflexivity | left; reflexivity].
Defined.

End Scenarios.


(** * Further properties *)

(** Membership in a list written out: one case for each element. *)
Ltac in_list H :=
  repeat first
    [ apply elem_of_cons in H as [H | H]
    | apply elem_of_nil in H; destruct H ].

(** ** The auto-login handler: failures and edge cases *)

Section LoginHandlerEdges.
Context {OS Host User : Type}.
Context `{Sys : !System OS, Hub : !HostFramework Host User}.
Implicit Types w : World OS Host User.

(** The run of the handler once the file has been read, following the
    host's answers. *)
Lemma MyLoginHandler_get_run (self : MyLoginHandler) w (s : string) :
  read_text (w_os w) "auto_login_username.txt" = Ok s →
  MyLoginHandler_get self w =
    let n := PyStr.delete_char PyStr.LF s in
    let url := url_path_join (hub_server_base_url self) "home" in
    match user_from_username n (w_host w) with
    | (Raise e, h1) => (Raise e, MkWorld (w_os w) h1 (w_trace w ++ [EvUserFromUsername n]))
    | (Ok u, h1) =>
        match set_login_cookie u h1 with
        | (Raise e, h2) =>
            (Raise e,
             MkWorld (w_os w) h2 (w_trace w ++ [EvUserFromUsername n; EvSetLoginCookie u]))
        | (Ok _, h2) =>
            ((redirect url h2).1,
             MkWorld (w_os w) (redirect url h2).2
               (w_trace w ++ [EvUserFromUsername n; EvSetLoginCookie u; EvRedirect url]))
        end
    end.
Proof.
  intros Hread. unfold MyLoginHandler_get. unfold_m.
  rewrite Hread, PyStrFacts.replace_nl_delete. cbn [w_os w_host w_trace].
  destruct (user_from_username _ (w_host w)) as [[u | e] h1]; [| done].
  cbn [w_os w_host w_trace].
  destruct (set_login_cookie u h1) as [[[] | e] h2];
    cbn [w_os w_host w_trace]; rewrite <- ?app_assoc; [| done].
  by destruct (redirect _ h2) as [r h3].
Qed.

Lemma MyLoginHandler_get_unreadable (self : MyLoginHandler) w (e : exn) :
  read_text (w_os w) "auto_login_username.txt" = Raise e →
  MyLoginHandler_get self w = (Raise e, w).
Proof.
  intros Hread. unfold MyLoginHandler_get. unfold_m. rewrite Hread.
  by rewrite world_eta.
Qed.

Lemma delete_char_only_newlines (s : string) :
  only_newlines s = true → PyStr.delete_char PyStr.LF s = EmptyString.
Proof.
  induction s as [| c s IH]; [done |]. cbn [only_newlines PyStr.delete_char].
  intros [Hc Hs]%andb_prop. rewrite Hc. by apply IH.
Qed.

(** X1.  When the username file cannot be read, the handler raises the
    error of the read and does nothing else: no call to the host, no
    cookie, no redirect, the world as it was. *)
Theorem login_unreadable_file (self : MyLoginHandler) w (e : exn) :
  read_text (w_os w) "auto_login_username.txt" = Raise e →
  MyLoginHandler_get self w = (Raise e, w)
  ∧ authenticated_usernames (w_trace (MyLoginHandler_get self w).2)
    = authenticated_usernames (w_trace w).
Proof.
  intros Hread. rewrite (MyLoginHandler_get_unreadable self w e Hread). by split.
Qed.

(** X2.  The handler sets a cookie only for the user record the host
    returned for the name read from the file, and redirects only after
    that cookie was set, and then to the base URL joined with [home]. *)
Theorem login_cookie_before_redirect (self : MyLoginHandler) w :
  ∃ tr,
    w_trace (MyLoginHandler_get self w).2 = w_trace w ++ tr
    ∧ (∀ u, EvSetLoginCookie u ∈ tr →
         ∃ s h1,
           read_text (w_os w) "auto_login_username.txt" = Ok s
           ∧ user_from_username (PyStr.delete_char PyStr.LF s) (w_host w) = (Ok u, h1))
    ∧ (∀ url, EvRedirect url ∈ tr →
         url = url_path_join (hub_server_base_url self) "home"
         ∧ ∃ s u h1 h2,
             read_text (w_os w) "auto_login_username.txt" = Ok s
             ∧ user_from_username (PyStr.delete_char PyStr.LF s) (w_host w) = (Ok u, h1)
             ∧ set_login_cookie u h1 = (Ok tt, h2)).
Proof.
  destruct (read_text (w_os w) "auto_login_username.txt") as [s | e] eqn:Hread.
  - rewrite (MyLoginHandler_get_run self w s Hread). cbn zeta.
    destruct (user_from_username _ (w_host w)) as [[u | e] h1] eqn:Hu.
    + destruct (set_login_cookie u h1) as [[[] | e] h2] eqn:Hc; eexists;
        (split; [reflexivity |]); split.
      * intros u' Hin. exists s, h1. split; [done |].
        in_list Hin; try discriminate. by injection Hin as ->.
      * intros url Hin. in_list Hin; try discriminate. injection Hin as ->.
        split; [done |]. by exists s, u, h1, h2.
      * intros u' Hin. exists s, h1. split; [done |].
        in_list Hin; try discriminate. by injection Hin as ->.
      * intros url Hin. in_list Hin; discriminate.
    + eexists. split; [reflexivity |]. split; intros ? Hin; in_list Hin; discriminate.
  - rewrite (MyLoginHandler_get_unreadable self w e Hread). exists [].
    split; [by rewrite app_nil_r |]. split; intros ? Hin; in_list Hin.
Qed.

(** X3.  Whatever the host answers, a request whose file can be read
    makes exactly one lookup, and the name looked up holds no line
    feed. *)
Theorem login_name_has_no_newline (self : MyLoginHandler) w (s : string) :
  read_text (w_os w) "auto_login_username.txt" = Ok s →
  ∃ n,
    authenticated_usernames (w_trace (MyLoginHandler_get self w).2)
    = authenticated_usernames (w_trace w) ++ [n]
    ∧ PyStr.free_of PyStr.LF n = true
    ∧ n = PyStr.replace PyStr.nl EmptyString s.
Proof.
  intros Hread. exists (PyStr.delete_char PyStr.LF s).
  split; [| split; [apply PyStrFacts.delete_char_free
                   | by rewrite PyStrFacts.replace_nl_delete]].
  rewrite (MyLoginHandler_get_run self w s Hread). cbn zeta.
  unfold authenticated_usernames.
  destruct (user_from_username _ (w_host w)) as [[u | e] h1];
    [destruct (set_login_cookie u h1) as [[[] | e] h2] |];
    cbn [snd w_trace]; by rewrite omap_app.
Qed.

(** X4.  An empty file, or one of line feeds only, is not refused: the
    handler asks the host for the user with the empty name. *)
Theorem login_blank_file (self : MyLoginHandler) w (s : string) :
  read_text (w_os w) "auto_login_username.txt" = Ok s →
  only_newlines s = true →
  authenticated_usernames (w_trace (MyLoginHandler_get self w).2)
  = authenticated_usernames (w_trace w) ++ [EmptyString].
Proof.
  intros Hread Hblank.
  rewrite (MyLoginHandler_get_run self w s Hread),
    (delete_char_only_newlines s Hblank). cbn zeta.
  unfold authenticated_usernames.
  destruct (user_from_username _ (w_host w)) as [[u | e] h1];
    [destruct (set_login_cookie u h1) as [[[] | e] h2] |];
    cbn [snd w_trace]; by rewrite omap_app.
Qed.

End LoginHandlerEdges.

(** ** The allow-list checks: the log, rejection and growth *)

Section WhitelistEdges.
Context {OS Host User : Type}.
Context `{Sys : !System OS, Hub : !HostFramework Host User, Iter : !SetIteration}.
Implicit Types w : World OS Host User.
Implicit Types self : MyLocalAuthenticator.

(** The names the loop reports are names it was given, and the lookup
    of each raised [KeyError]. *)
Lemma unresolved_visited_elem (os : OS) (username : string) (grnams : list string)
    (g : string) :
  g ∈ unresolved_visited os username grnams →
  g ∈ grnams ∧ ∃ msg, getgrnam os g = Raise (Exn KeyError msg).
Proof.
  induction grnams as [| x rest IH]; cbn [unresolved_visited].
  - intros Hin. in_list Hin.
  - destruct (getgrnam os x) as [group | [cls msg]] eqn:Hx.
    + case_bool_decide; intros Hin; [in_list Hin |].
      destruct (IH Hin). split; [by right | done].
    + destruct cls; cbn [exn_cls exn_class_eqb]; intros Hin;
        [| in_list Hin ..].
      apply elem_of_cons in Hin as [-> | Hin].
      * split; [by left | by exists msg].
      * destruct (IH Hin). split; [by right | done].
Qed.

(** When the visit comes to False, every name without a group is
    reported, in the order of the visit. *)
Lemma unresolved_visited_rejected (os : OS) (username : string) (grnams : list string) :
  visit_outcome os username grnams = Ok false →
  unresolved_visited os username grnams
  = filter (λ g, unresolvable os g = true) grnams.
Proof.
  induction grnams as [| x rest IH]; [done |].
  cbn [visit_outcome unresolved_visited]. rewrite filter_cons.
  destruct (getgrnam os x) as [group | e] eqn:Hgx.
  - case_bool_decide; [done |]. intros Hrest.
    rewrite decide_False; [by apply IH |].
    unfold unresolvable. by rewrite Hgx.
  - destruct (exn_class_eqb (exn_cls e) KeyError) eqn:Hcls; [| done].
    intros Hrest. rewrite decide_True; [f_equal; by apply IH |].
    unfold unresolvable. by rewrite Hgx.
Qed.

(** A visit raises the error of a lookup of one of its names, and
    that error is not a [KeyError]. *)
Lemma visit_outcome_raise (os : OS) (username : string) (grnams : list string)
    (e : exn) :
  visit_outcome os username grnams = Raise e →
  ∃ g, g ∈ grnams ∧ getgrnam os g = Raise e ∧ exn_cls e ≠ KeyError.
Proof.
  induction grnams as [| x rest IH]; [done |]. cbn [visit_outcome].
  destruct (getgrnam os x) as [group | e'] eqn:Hx.
  - case_bool_decide; [done |].
    intros (g & Hin & Hg)%IH. exists g. split; [by right | done].
  - destruct (exn_class_eqb (exn_cls e') KeyError) eqn:Hcls.
    + intros (g & Hin & Hg)%IH. exists g. split; [by right | done].
    + intros [= ->]. exists x. split; [by left |]. split; [done |].
      intros Heq. by rewrite Heq in Hcls.
Qed.

(** Up to the first name that admits the username, with lookups that
    answer before it, the visit comes to True and reports names before
    it only. *)
Lemma visit_until_match (os : OS) (username : string)
    (pre post : list string) (g : string) :
  (∀ x, x ∈ pre → lookup_answers os x) →
  group_admits os username g →
  visit_outcome os username (pre ++ g :: post) = Ok true
  ∧ ∀ x, x ∈ unresolved_visited os username (pre ++ g :: post) → x ∈ pre.
Proof.
  intros Hans (group & Hg & Hmem). induction pre as [| y pre IH];
    cbn [app visit_outcome unresolved_visited].
  - rewrite Hg, bool_decide_eq_true_2 by done. split; [done |].
    intros x Hin. in_list Hin.
  - destruct IH as [IHo IHv]; [intros x Hin; apply Hans; by right |].
    destruct (Hans y) as [[gy Hy] | [msg Hy]]; [by left | |]; rewrite Hy.
    + case_bool_decide; [split; [done |]; intros x Hin; in_list Hin |].
      split; [done |]. intros x Hin. right. by apply IHv.
    + cbn [exn_cls exn_class_eqb]. split; [done |].
      intros x [-> | Hin]%elem_of_cons; [by left |]. right. by apply IHv.
Qed.

(** X5.  [check_whitelist] touches neither the system nor the host,
    whether it returns or raises.  All it adds to the trace are "No
    such group" errors, each for a configured name whose lookup raised
    [KeyError]; it raises only the error of a lookup of a configured
    name that is not a [KeyError], which the loop does not catch; with
    an empty group list it adds nothing and answers as the base
    framework's check. *)
Theorem check_whitelist_only_logs self (username : string) w :
  ∃ r names,
    check_whitelist self username w
    = (r, MkWorld (w_os w) (w_host w) (w_trace w ++ map no_such_group names))
    ∧ (∀ g, g ∈ names →
         g ∈ group_whitelist self
         ∧ ∃ msg, getgrnam (w_os w) g = Raise (Exn KeyError msg))
    ∧ (∀ e, r = Raise e →
         ∃ g, g ∈ group_whitelist self
              ∧ getgrnam (w_os w) g = Raise e ∧ exn_cls e ≠ KeyError)
    ∧ (group_whitelist self = ∅ →
         names = [] ∧ r = Ok (base_check_whitelist (whitelist self) username)).
Proof.
  unfold check_whitelist. case_bool_decide as He; cbn [negb].
  - exists (Ok (base_check_whitelist (whitelist self) username)), [].
    unfold_m. cbn [map]. rewrite app_nil_r, world_eta.
    split; [done |]. split; [intros g Hin; in_list Hin |]. split; [done | done].
  - eexists _, _. split; [apply check_group_whitelist_run |].
    split; [| split; [| done]].
    + intros g [Hin Hnone]%unresolved_visited_elem.
      split; [| done]. by apply elem_of_set_iter.
    + intros e (g & Hin & Hg)%visit_outcome_raise. exists g.
      split; [| done]. by apply elem_of_set_iter.
Qed.

(** X6.  When [check_group_whitelist] rejects the username, it has
    visited the whole list: every configured name without a group is
    reported in the log once, and nothing else is. *)
Theorem check_group_whitelist_rejection_log self (username : string) w :
  (check_group_whitelist self username w).1 = Ok false →
  ∃ tr,
    w_trace (check_group_whitelist self username w).2 = w_trace w ++ tr
    ∧ tr ≡ₚ map no_such_group
              (filter (λ g, unresolvable (w_os w) g = true)
                 (elements (group_whitelist self))).
Proof.
  rewrite check_group_whitelist_run. cbn [fst snd w_trace].
  intros Hno. eexists. split; [reflexivity |].
  rewrite unresolved_visited_rejected by done.
  apply Permutation_map. apply filter_Permutation, set_iter_perm.
Qed.

(** X7.  Growing the group list never turns an admission into a
    rejection: when a group list admits the username, the check with a
    larger one does not return False; and when the lookup of every
    name of the larger list answers, it returns True. *)
Theorem check_group_whitelist_monotone self self' (username : string) w :
  group_whitelist self ⊆ group_whitelist self' →
  (check_group_whitelist self username w).1 = Ok true →
  (check_group_whitelist self' username w).1 ≠ Ok false
  ∧ ((∀ g, g ∈ group_whitelist self' → lookup_answers (w_os w) g) →
     (check_group_whitelist self' username w).1 = Ok true).
Proof.
  rewrite !check_group_whitelist_run. cbn [fst].
  intros Hsub (g & Hin & Had)%visit_outcome_true.
  assert (g ∈ set_iter (group_whitelist self')) as Hin'.
  { apply elem_of_set_iter, Hsub. by apply elem_of_set_iter in Hin. }
  split.
  - intros Hfalse. by destruct (visit_outcome_false _ _ _ Hfalse g Hin').
  - intros Hans. rewrite visit_outcome_answers.
    + f_equal. apply some_group_admits. by exists g.
    + intros x Hx. by apply Hans, elem_of_set_iter.
Qed.

(** X8.  The first group in the iteration that lists the username
    ends the check with True, provided the lookups of the names before
    it answer: the names after it are not looked up, whatever their
    lookup would do, and only names before it can be reported as having
    no group. *)
Theorem check_group_whitelist_first_match self (username : string) w
    (pre post : list string) (grnam : string) :
  set_iter (group_whitelist self) = pre ++ grnam :: post →
  (∀ g, g ∈ pre → lookup_answers (w_os w) g) →
  group_admits (w_os w) username grnam →
  ∃ names,
    check_group_whitelist self username w
    = (Ok true, MkWorld (w_os w) (w_host w) (w_trace w ++ map no_such_group names))
    ∧ ∀ g, g ∈ names →
        g ∈ pre ∧ ∃ msg, getgrnam (w_os w) g = Raise (Exn KeyError msg).
Proof.
  intros Horder Hans Had. rewrite check_group_whitelist_run, Horder.
  destruct (visit_until_match (w_os w) username pre post grnam Hans Had)
    as [Hout Hvis].
  rewrite Hout. eexists. split; [reflexivity |].
  intros g Hin. split; [by apply Hvis |].
  by destruct (unresolved_visited_elem _ _ _ _ Hin).
Qed.

(** X9.  The observer of [group_whitelist] warns whenever the username
    whitelist is not empty, whatever the change: also when the group
    list is empty, where [check_whitelist] does not ignore the username
    whitelist but answers from it. *)
Theorem group_whitelist_warning self (change : trait_change) w :
  whitelist self ≠ ∅ →
  _group_whitelist_changed self change w
  = (Ok tt,
     MkWorld (w_os w) (w_host w)
       (w_trace w ++
          [EvLog LWarning
             "Ignoring username whitelist because group whitelist supplied!"]))
  ∧ (group_whitelist self = ∅ →
     ∀ username,
       check_whitelist self username w
       = (Ok (base_check_whitelist (whitelist self) username), w)).
Proof.
  intros Hwl. split.
  - unfold _group_whitelist_changed. by rewrite bool_decide_eq_false_2.
  - intros Hgw username. unfold check_whitelist.
    by rewrite bool_decide_eq_true_2.
Qed.

End WhitelistEdges.

(** ** The new-user hook: every path *)

Section AddUserEdges.
Context {OS Host User : Type}.
Context `{Sys : !System OS, Hub : !HostFramework Host User}.
Implicit Types w : World OS Host User.
Implicit Types self : MyLocalAuthenticator.

(** Reading the trait leaves the world alone. *)
Lemma get_add_user_cmd_world self w :
  get_add_user_cmd (Host := Host) (User := User) self w
  = ((get_add_user_cmd (Host := Host) (User := User) self w).1, w).
Proof.
  unfold get_add_user_cmd, _add_user_cmd_default.
  destruct (add_user_cmd self); [done |].
  destruct (String.eqb sys_platform "darwin"); [done |].
  unfold_m. cbn. by destruct (truthy _).
Qed.

Lemma add_system_user_no_template self (user : User) w (e : exn) :
  get_add_user_cmd self w = (Raise e, w) →
  add_system_user self user w = (Raise e, w).
Proof. intros Hcmd. unfold add_system_user. by rewrite (bind_raise _ _ _ _ _ Hcmd). Qed.

Lemma add_system_user_no_child self (user : User) w
    (template : list string) (e : exn) (os' : OS) :
  get_add_user_cmd self w = (Ok template, w) →
  popen_wait (creation_command template (user_name user)) (w_os w) = (Raise e, os') →
  add_system_user self user w =
    (Raise e,
     MkWorld os' (w_host w)
       (w_trace w ++
          [EvLog LInfo
             ("Creating user: " +:+
                PyStr.join " "
                  (map pipes_quote (creation_command template (user_name user))));
           EvPopen (creation_command template (user_name user))])).
Proof.
  intros Hcmd Hrun. unfold add_system_user.
  rewrite (bind_ok _ _ w template w Hcmd).
  unfold creation_command in *. unfold_m. cbn [w_os w_host w_trace].
  rewrite Hrun. by rewrite <- app_assoc.
Qed.

Lemma commands_run_snoc_log (tr : list (event User)) (level : log_level)
    (msg : string) (cmd : list string) :
  commands_run (tr ++ [EvLog level msg; EvPopen cmd]) = commands_run tr ++ [cmd].
Proof. unfold commands_run. by rewrite omap_app. Qed.

Lemma base_add_user_calls_snoc_log (tr : list (event User)) (level : log_level)
    (msg : string) (cmd : list string) :
  base_add_user_calls (tr ++ [EvLog level msg; EvPopen cmd]) = base_add_user_calls tr.
Proof. unfold base_add_user_calls. rewrite omap_app. apply app_nil_r. Qed.

Lemma commands_run_snoc_base (tr : list (event User)) (user : User) :
  commands_run (tr ++ [EvBaseAddUser user]) = commands_run tr.
Proof. by apply omap_snoc_none. Qed.

Lemma base_add_user_calls_snoc_base (tr : list (event User)) (user : User) :
  base_add_user_calls (tr ++ [EvBaseAddUser user]) = base_add_user_calls tr ++ [user].
Proof. unfold base_add_user_calls. by rewrite omap_app. Qed.

Lemma last_creation_command (template : list string) (name : string) :
  last (creation_command template name) = Some name.
Proof. unfold creation_command. apply last_snoc. Qed.

(** X10.  [system_user_exists] changes nothing and catches
    [KeyError] only: it answers True when the password database has an
    entry for the user's name, False when the lookup raises [KeyError],
    and lets any other error of the lookup through. *)
Theorem system_user_exists_answers (user : User) w :
  ∃ r,
    system_user_exists user w = (r, w)
    ∧ (r = Ok true ↔ ∃ entry, getpwnam (w_os w) (user_name user) = Ok entry)
    ∧ (r = Ok false ↔
       ∃ msg, getpwnam (w_os w) (user_name user) = Raise (Exn KeyError msg))
    ∧ (∀ e, r = Raise e ↔
         getpwnam (w_os w) (user_name user) = Raise e ∧ exn_cls e ≠ KeyError).
Proof.
  eexists. split; [apply system_user_exists_run |].
  destruct (getpwnam (w_os w) (user_name user)) as [entry | [cls msg]].
  - split; [split; [by exists entry | done] |].
    split; [split; [done | by intros [? ?]] |].
    intros e. split; [done | by intros [? ?]].
  - destruct cls; cbn [exn_cls exn_class_eqb].
    1:{ split; [split; [done | by intros [? ?]] |].
        split; [split; [by exists msg | done] |].
        intros e. split; [done |]. intros [[= <-] Hcls]. by cbn in Hcls. }
    all: split; [split; [done | by intros [? ?]] |];
         (split; [split; [done | by intros [? [= ]]] |]);
         intros e; (split; [by intros [= <-] | by intros [[= <-] _]]).
Qed.

(** X11.  When the creation command cannot be started, the error of
    [Popen] comes out of [add_user] as it is: the attempt is in the log
    and the trace, the base framework's [add_user] is not called and the
    host is unchanged. *)
Theorem add_user_command_not_started self (user : User) w (msg : string)
    (template : list string) (e : exn) (os' : OS) :
  getpwnam (w_os w) (user_name user) = Raise (Exn KeyError msg) →
  create_system_users self = true →
  get_add_user_cmd self w = (Ok template, w) →
  popen_wait (creation_command template (user_name user)) (w_os w) = (Raise e, os') →
  ∃ w',
    add_user self user w = (Raise e, w')
    ∧ w_os w' = os' ∧ w_host w' = w_host w
    ∧ commands_run (w_trace w')
      = commands_run (w_trace w) ++ [creation_command template (user_name user)]
    ∧ base_add_user_calls (w_trace w') = base_add_user_calls (w_trace w).
Proof.
  intros Hnone Hcreate Hcmd Hrun.
  pose proof (add_system_user_no_child self user w _ _ _ Hcmd Hrun) as Hsys.
  eexists. rewrite (add_user_absent _ _ _ _ Hnone), Hcreate.
  rewrite (bind_raise _ _ _ _ _ Hsys). split; [reflexivity |].
  cbn [w_os w_host w_trace].
  by rewrite commands_run_snoc_log, base_add_user_calls_snoc_log.
Qed.

(** X12.  On [darwin] with no [add_user_cmd] configured, a user for
    whom the password database has no entry (the lookup raises
    [KeyError]) cannot be added even with [create_system_users] on:
    [add_user] raises the [ValueError] of the default, runs nothing and
    leaves the world as it was. *)
Theorem add_user_on_darwin self (user : User) w (msg : string) :
  getpwnam (w_os w) (user_name user) = Raise (Exn KeyError msg) →
  create_system_users self = true →
  add_user_cmd self = None →
  sys_platform = "darwin" →
  add_user self user w
  = (Raise (Exn ValueError "I don't know how to create users on OS X"), w).
Proof.
  intros Hnone Hcreate Hunset Hdarwin.
  rewrite (add_user_absent _ _ _ _ Hnone), Hcreate.
  apply bind_raise, add_system_user_no_template.
  unfold get_add_user_cmd. rewrite Hunset. unfold _add_user_cmd_default.
  by rewrite Hdarwin.
Qed.

(** Every path through [add_user]. *)
Lemma add_user_cases self (user : User) w :
  ((∃ entry, getpwnam (w_os w) (user_name user) = Ok entry)
   ∧ add_user self user w = super_add_user user w)
  ∨ (∃ e, getpwnam (w_os w) (user_name user) = Raise e
          ∧ exn_cls e ≠ KeyError
          ∧ add_user self user w = (Raise e, w))
  ∨ ((∃ msg, getpwnam (w_os w) (user_name user) = Raise (Exn KeyError msg))
     ∧ create_system_users self = false
     ∧ add_user self user w
       = (Raise (Exn KeyError ("User " +:+ user_name user +:+ " does not exist.")), w))
  ∨ ((∃ msg, getpwnam (w_os w) (user_name user) = Raise (Exn KeyError msg))
     ∧ create_system_users self = true
     ∧ ∃ e, get_add_user_cmd self w = (Raise e, w)
            ∧ add_user self user w = (Raise e, w))
  ∨ ((∃ msg, getpwnam (w_os w) (user_name user) = Raise (Exn KeyError msg))
     ∧ create_system_users self = true
     ∧ ∃ template os',
         get_add_user_cmd self w = (Ok template, w)
         ∧ ((∃ e,
               popen_wait (creation_command template (user_name user)) (w_os w)
               = (Raise e, os')
               ∧ add_user self user w
                 = (Raise e, after_creation_attempt w template (user_name user) os'))
            ∨ (∃ returncode output e,
                 popen_wait (creation_command template (user_name user)) (w_os w)
                 = (Ok (returncode, output), os')
                 ∧ returncode ≠ 0%Z
                 ∧ add_user self user w
                   = (Raise e, after_creation_attempt w template (user_name user) os'))
            ∨ (∃ output,
                 popen_wait (creation_command template (user_name user)) (w_os w)
                 = (Ok (0%Z, output), os')
                 ∧ add_user self user w
                   = super_add_user user
                       (after_creation_attempt w template (user_name user) os')))).
Proof.
  destruct (getpwnam (w_os w) (user_name user)) as [entry | e0] eqn:Hpw.
  { left. split; [by exists entry |]. by eapply add_user_present. }
  right.
  destruct (exn_class_eqb (exn_cls e0) KeyError) eqn:Hcls.
  2:{ left. exists e0. split; [done |].
      assert (exn_cls e0 ≠ KeyError) as Hne by (intros Heq; by rewrite Heq in Hcls).
      split; [done |]. by apply add_user_lookup_fails. }
  right. destruct e0 as [[] msg]; cbn [exn_cls exn_class_eqb] in Hcls; try done.
  rewrite (add_user_absent self user w msg Hpw).
  destruct (create_system_users self) eqn:Hcreate;
    [right | left; split; [by exists msg | done]].
  pose proof (get_add_user_cmd_world self w) as Hw.
  destruct (get_add_user_cmd self w) as [[template | e] w0] eqn:Hcmd;
    cbn [fst] in Hw; injection Hw as ->.
  2:{ left. split; [by exists msg |]. split; [done |]. exists e. split; [done |].
      apply bind_raise. by apply add_system_user_no_template. }
  right. split; [by exists msg |]. split; [done |].
  destruct (popen_wait (creation_command template (user_name user)) (w_os w))
    as [[[rc output] | e] os'] eqn:Hrun.
  - exists template, os'. split; [done |].
    right. pose proof (add_system_user_run self user w _ _ _ _ Hcmd Hrun) as Hsys.
    destruct (Z.eqb_spec rc 0) as [-> | Hrc].
    + right. exists output. split; [done |].
      by rewrite (bind_ok _ _ _ _ _ Hsys).
    + left. eexists rc, output, _. split; [done |]. split; [done |].
      by rewrite (bind_raise _ _ _ _ _ Hsys).
  - exists template, os'. split; [done |].
    left. exists e. split; [done |].
    pose proof (add_system_user_no_child self user w _ _ _ Hcmd Hrun) as Hsys.
    by rewrite (bind_raise _ _ _ _ _ Hsys).
Qed.

(** X13.  [add_user] returns only through the base framework's
    [add_user], called once and having returned; and then the account
    was there before, or a creation command was run and exited with
    0. *)
Theorem add_user_success self (user : User) w w' :
  add_user self user w = (Ok tt, w') →
  base_add_user_calls (w_trace w') = base_add_user_calls (w_trace w) ++ [user]
  ∧ (∃ h, (base_add_user user (w_host w)) = (Ok tt, h) ∧ w_host w' = h)
  ∧ (((∃ entry, getpwnam (w_os w) (user_name user) = Ok entry) ∧ w_os w' = w_os w)
     ∨ ((∃ msg, getpwnam (w_os w) (user_name user) = Raise (Exn KeyError msg))
        ∧ create_system_users self = true
        ∧ ∃ template output,
            get_add_user_cmd self w = (Ok template, w)
            ∧ popen_wait (creation_command template (user_name user)) (w_os w)
              = (Ok (0%Z, output), w_os w'))).
Proof.
  intros Hok.
  destruct (add_user_cases self user w)
    as [(Hsome & Hadd)
       | [(e & _ & _ & Hadd)
         | [(Hnone & Hoff & Hadd)
           | [(Hnone & Hon & e & _ & Hadd)
             | (Hnone & Hon & template & os' & Hcmd &
                [(e & _ & Hadd)
                | [(rc & output & e & _ & _ & Hadd)
                  | (output & Hrun & Hadd)]])]]]];
    rewrite Hadd in Hok; try discriminate;
    rewrite super_add_user_run in Hok; injection Hok as Hres <-;
    cbn [w_os w_host w_trace after_creation_attempt].
  - rewrite base_add_user_calls_snoc_base. split; [done |]. split.
    + eexists. split; [| done].
      destruct (base_add_user user (w_host w)) as [r h]. cbn in *. by subst.
    + by left.
  - rewrite base_add_user_calls_snoc_base, base_add_user_calls_snoc_log.
    split; [done |]. split.
    + eexists. split; [| done].
      destruct (base_add_user user (w_host w)) as [r h]. cbn in *. by subst.
    + right. split; [done |]. split; [done |]. by exists template, output.
Qed.

(** X14.  One call of [add_user] runs at most one command, and only for
    a user without an account when [create_system_users] is on; the
    command is the template with the name substituted, and its last
    argument is the user's name as it is. *)
Theorem add_user_runs_at_most_one_command self (user : User) w :
  ∃ cmds,
    commands_run (w_trace (add_user self user w).2) = commands_run (w_trace w) ++ cmds
    ∧ (cmds = []
       ∨ ((∃ msg, getpwnam (w_os w) (user_name user) = Raise (Exn KeyError msg))
          ∧ create_system_users self = true
          ∧ ∃ template,
              get_add_user_cmd self w = (Ok template, w)
              ∧ cmds = [creation_command template (user_name user)]))
    ∧ ∀ cmd, cmd ∈ cmds → last cmd = Some (user_name user).
Proof.
  assert (∀ template os',
    commands_run (w_trace (after_creation_attempt w template (user_name user) os'))
    = commands_run (w_trace w) ++ [creation_command template (user_name user)])
    as Hattempt by (intros; apply commands_run_snoc_log).
  assert (∀ template (cmd : list string),
    cmd ∈ [creation_command template (user_name user)] →
    last cmd = Some (user_name user)) as Hlast.
  { intros template cmd ->%list_elem_of_singleton. apply last_creation_command. }
  destruct (add_user_cases self user w)
    as [(Hsome & Hadd)
       | [(e & _ & _ & Hadd)
         | [(Hnone & Hoff & Hadd)
           | [(Hnone & Hon & e & _ & Hadd)
             | (Hnone & Hon & template & os' & Hcmd &
                [(e & _ & Hadd)
                | [(rc & output & e & _ & _ & Hadd)
                  | (output & Hrun & Hadd)]])]]]];
    rewrite Hadd; rewrite ?super_add_user_run; cbn [snd w_trace];
    rewrite ?commands_run_snoc_base, ?Hattempt.
  1-4: exists []; rewrite app_nil_r; split; [done |]; split; [by left |];
       intros cmd Hin; in_list Hin.
  all: eexists; split; [reflexivity |]; split; [| by apply Hlast];
       right; split; [done |]; split; [done |]; by exists template.
Qed.

(** X15.  Nothing is undone: when the creation command has exited with
    0 and the base framework's [add_user] then raises, [add_user] raises
    that error and the system stays as the command left it. *)
Theorem add_user_no_rollback self (user : User) w (msg : string)
    (template : list string) (output : string) (os' : OS) (e : exn) (h : Host) :
  getpwnam (w_os w) (user_name user) = Raise (Exn KeyError msg) →
  create_system_users self = true →
  get_add_user_cmd self w = (Ok template, w) →
  popen_wait (creation_command template (user_name user)) (w_os w)
  = (Ok (0%Z, output), os') →
  base_add_user user (w_host w) = (Raise e, h) →
  ∃ w',
    add_user self user w = (Raise e, w')
    ∧ w_os w' = os'
    ∧ commands_run (w_trace w')
      = commands_run (w_trace w) ++ [creation_command template (user_name user)].
Proof.
  intros Hnone Hcreate Hcmd Hrun Hbase.
  pose proof (add_system_user_run self user w _ _ _ _ Hcmd Hrun) as Hsys.
  rewrite (add_user_absent _ _ _ _ Hnone), Hcreate.
  rewrite (bind_ok _ _ _ _ _ Hsys), super_add_user_run.
  cbn [w_os w_host w_trace]. rewrite Hbase. eexists. split; [reflexivity |].
  cbn [w_os w_trace]. split; [done |].
  by rewrite commands_run_snoc_base, commands_run_snoc_log.
Qed.

(** X16.  The existence check is the only guard against creating an
    account twice, and it is enough when the command did create the
    account: [add_user] called again for the same user runs no second
    command. *)
Theorem add_user_again_runs_nothing self (user : User) w (msg : string)
    (template : list string) (output : string) (os' : OS) (entry : struct_passwd) :
  getpwnam (w_os w) (user_name user) = Raise (Exn KeyError msg) →
  create_system_users self = true →
  get_add_user_cmd self w = (Ok template, w) →
  popen_wait (creation_command template (user_name user)) (w_os w)
  = (Ok (0%Z, output), os') →
  getpwnam os' (user_name user) = Ok entry →
  commands_run (w_trace ((add_user self user;; add_user self user) w).2)
  = commands_run (w_trace w) ++ [creation_command template (user_name user)].
Proof.
  intros Hnone Hcreate Hcmd Hrun Hsome.
  pose proof (add_system_user_run self user w _ _ _ _ Hcmd Hrun) as Hsys.
  assert (add_user self user w
          = super_add_user user (after_creation_attempt w template (user_name user) os'))
    as Hfirst.
  { rewrite (add_user_absent _ _ _ _ Hnone), Hcreate.
    by rewrite (bind_ok _ _ _ _ _ Hsys). }
  rewrite super_add_user_run in Hfirst.
  destruct (base_add_user user _) as [[[] | e] h] eqn:Hbase; cbn [fst snd] in Hfirst.
  - rewrite (bind_ok _ _ _ _ _ Hfirst).
    rewrite (add_user_present _ _ _ entry) by done. rewrite super_add_user_run.
    cbn [snd w_trace after_creation_attempt].
    by rewrite !commands_run_snoc_base, commands_run_snoc_log.
  - rewrite (bind_raise _ _ _ _ _ Hfirst).
    cbn [snd w_trace after_creation_attempt].
    by rewrite commands_run_snoc_base, commands_run_snoc_log.
Qed.

(** X17.  No token of a default template holds [USERNAME]: with the
    default, the command is the template as it is, followed by the
    user's name, whatever the name. *)
Theorem default_command_appends_name self w :
  add_user_cmd self = None →
  sys_platform ≠ "darwin" →
  ∃ template,
    get_add_user_cmd (Host := Host) (User := User) self w = (Ok template, w)
    ∧ ∀ name, creation_command template name = template ++ [name].
Proof.
  intros Hunset Hother. unfold get_add_user_cmd. rewrite Hunset.
  unfold _add_user_cmd_default. apply String.eqb_neq in Hother. rewrite Hother.
  unfold_m. cbn [w_os]. destruct (truthy _); eexists; (split; [reflexivity |]);
    intros name; reflexivity.
Qed.

End AddUserEdges.

(** ** The substitution of the placeholder *)

Section Placeholder.
Import PyStr.

Lemma prefix_true_append (old s : string) :
  String.prefix old s = true → ∃ t, s = old +:+ t.
Proof.
  revert s. induction old as [| c old IH]; intros s; [by exists s |].
  destruct s as [| a s]; cbn [String.prefix]; [done |].
  destruct (ascii_dec c a) as [<- | _]; [| done].
  intros (t & ->)%IH. by exists t.
Qed.

Lemma occurs_in_occursb (x s : string) : occurs_in x s → occursb x s = true.
Proof.
  intros (pre & post & ->). induction pre as [| a pre IH].
  - rewrite PyStrFacts.append_nil_l.
    destruct (x +:+ post) eqn:E; cbn [occursb]; rewrite <- E;
      by rewrite PyStrFacts.prefix_append.
  - rewrite PyStrFacts.append_cons. cbn [occursb]. rewrite IH.
    apply orb_true_r.
Qed.

Lemma occursb_false (x s : string) : occursb x s = false → ¬ occurs_in x s.
Proof. intros Hno Hocc%occurs_in_occursb. congruence. Qed.

(** X19.  A token in which the pattern does not occur is left as it
    is. *)
Theorem replace_without_occurrence (old new s : string) :
  old ≠ EmptyString →
  ¬ occurs_in old s →
  replace old new s = s.
Proof.
  intros Hold. induction s as [| c s IH]; intros Hfree.
  - by apply PyStrFacts.replace_nil.
  - rewrite PyStrFacts.replace_no_match; [| done |].
    + f_equal. apply IH. intros (pre & post & ->).
      apply Hfree. by exists (String c pre), post.
    + apply not_true_is_false. intros (t & Ht)%prefix_true_append.
      apply Hfree. exists EmptyString, t. by rewrite Ht.
Qed.

(** X20.  An occurrence of the pattern that follows a text without the
    pattern's first character is replaced, the text before it is kept,
    and the scan goes on after the occurrence; what is put in is not
    scanned again. *)
Theorem replace_after_clean_prefix (c : ascii) (old new pre s : string) :
  free_of c pre = true →
  replace (String c old) new (pre +:+ String c old +:+ s)
  = pre +:+ new +:+ replace (String c old) new s.
Proof.
  intros Hpre. induction pre as [| a pre IH].
  - rewrite !PyStrFacts.append_nil_l. by apply PyStrFacts.replace_match.
  - cbn [free_of] in Hpre. apply andb_prop in Hpre as [Ha Hpre].
    rewrite !(PyStrFacts.append_cons a pre).
    rewrite PyStrFacts.replace_no_match; [by rewrite IH | done |].
    cbn [String.prefix]. destruct (ascii_dec c a) as [<- | _]; [| done].
    by rewrite Ascii.eqb_refl in Ha.
Qed.

End Placeholder.

(** ** Further scenarios *)

Section FurtherScenarios.
Import Scenario.
#[local] Existing Instances linux_system hub forwards.

Lemma login_unreadable_file_witness :
  MyLoginHandler_get handler (start (Faults.without_login_file linux))
  = (Raise (Exn OSError ("No such file or directory: " +:+ "auto_login_username.txt")),
     start (Faults.without_login_file linux))
  ∧ authenticated_usernames
      (w_trace (MyLoginHandler_get handler (start (Faults.without_login_file linux))).2)
    = authenticated_usernames (w_trace (start (Faults.without_login_file linux))).
Proof.
  refine (login_unreadable_file handler (start (Faults.without_login_file linux))
            (Exn OSError ("No such file or directory: " +:+ "auto_login_username.txt"))
            _).
  reflexivity.
Defined.

Lemma login_name_has_no_newline_witness :
  ∃ n,
    authenticated_usernames
      (w_trace (MyLoginHandler_get handler (start (with_login_file two_lines linux))).2)
    = authenticated_usernames (w_trace (start (with_login_file two_lines linux))) ++ [n]
    ∧ PyStr.free_of PyStr.LF n = true
    ∧ n = PyStr.replace PyStr.nl EmptyString two_lines.
Proof.
  refine (login_name_has_no_newline handler
            (start (with_login_file two_lines linux)) two_lines _).
  reflexivity.
Defined.

Lemma login_blank_file_witness :
  authenticated_usernames
    (w_trace
       (MyLoginHandler_get handler
          (start (with_login_file (PyStr.nl +:+ PyStr.nl) linux))).2)
  = authenticated_usernames
      (w_trace (start (with_login_file (PyStr.nl +:+ PyStr.nl) linux)))
    ++ [EmptyString].
Proof.
  refine (login_blank_file handler
            (start (with_login_file (PyStr.nl +:+ PyStr.nl) linux))
            (PyStr.nl +:+ PyStr.nl) _ _); reflexivity.
Defined.

Lemma check_group_whitelist_rejection_log_witness :
  ∃ tr,
    w_trace
      (check_group_whitelist (authenticator false None {["staff"; "nogroup"]})
         "carol" (start linux)).2
    = w_trace (start linux) ++ tr
    ∧ tr ≡ₚ map no_such_group
              (filter (λ g, unresolvable linux g = true)
                 (elements ({["staff"; "nogroup"]} : gset string))).
Proof.
  refine (check_group_whitelist_rejection_log
            (authenticator false None {["staff"; "nogroup"]}) "carol" (start linux) _).
  vm_compute. reflexivity.
Defined.

Lemma check_group_whitelist_monotone_witness :
  (check_group_whitelist (authenticator false None {["staff"; "nogroup"]})
     "alice" (start linux)).1 ≠ Ok false
  ∧ (check_group_whitelist (authenticator false None {["staff"; "nogroup"]})
       "alice" (start linux)).1 = Ok true.
Proof.
  destruct (check_group_whitelist_monotone
              (authenticator false None {["staff"]})
              (authenticator false None {["staff"; "nogroup"]})
              "alice" (start linux)) as [Hnot Hyes].
  - apply union_subseteq_l.
  - vm_compute. reflexivity.
  - split; [exact Hnot |]. exact (Hyes staff_nogroup_answer).
Defined.

(** The group after the one that lists [alice] is not looked up, so
    that a name with a NUL character there does no harm. *)
Lemma check_group_whitelist_first_match_witness :
  ∃ names,
    check_group_whitelist (authenticator false None {["staff"; nul_name]})
      "alice" (start linux)
    = (Ok true, MkWorld linux [] ([] ++ map no_such_group names))
    ∧ ∀ g, g ∈ names →
        g ∈ [] ∧ ∃ msg, lookup_group g linux = Raise (Exn KeyError msg).
Proof.
  refine (check_group_whitelist_first_match
            (authenticator false None {["staff"; nul_name]}) "alice" (start linux)
            [] [nul_name] "staff" _ _ _).
  - vm_compute. reflexivity.
  - intros g Hg. destruct (not_elem_of_nil g Hg).
  - exists {| gr_name := "staff"; gr_gid := 100; gr_mem := ["alice"; "bob"] |}.
    split; [reflexivity | by left].
Defined.

Lemma group_whitelist_warning_witness :
  _group_whitelist_changed
    (with_whitelist {["carol"]} (authenticator false None ∅))
    {| change_old := {["staff"]}; change_new := ∅ |} (start linux)
  = (Ok tt,
     MkWorld linux []
       ([] ++
          [EvLog LWarning
             "Ignoring username whitelist because group whitelist supplied!"]))
  ∧ check_whitelist (with_whitelist {["carol"]} (authenticator false None ∅))
      "alice" (start linux)
    = (Ok (base_check_whitelist {["carol"]} "alice"), start linux).
Proof.
  assert (({["carol"]} : gset string) ≠ ∅) as Hne by apply non_empty_singleton_L.
  destruct (group_whitelist_warning
              (with_whitelist {["carol"]} (authenticator false None ∅))
              {| change_old := {["staff"]}; change_new := ∅ |} (start linux) Hne)
    as [Hwarn Hcheck].
  split; [exact Hwarn |]. exact (Hcheck eq_refl "alice").
Defined.

Lemma add_user_command_not_started_witness :
  ∃ w',
    add_user
      (authenticator true (Some {| program := "useradd"; arguments := ["-m"] |}) ∅)
      "river" (start linux)
    = (Raise (Exn OSError ("No such file or directory: " +:+ "useradd")), w')
    ∧ w_os w' = linux ∧ w_host w' = []
    ∧ commands_run (w_trace w') = [] ++ [creation_command ["useradd"; "-m"] "river"]
    ∧ base_add_user_calls (w_trace w') = [].
Proof.
  refine (add_user_command_not_started
            (authenticator true (Some {| program := "useradd"; arguments := ["-m"] |}) ∅)
            "river" (start linux)
            ("getpwnam(): name not found: '" +:+ "river" +:+ "'")
            ["useradd"; "-m"]
            (Exn OSError ("No such file or directory: " +:+ "useradd")) linux
            _ _ _ _); reflexivity.
Defined.

Lemma add_user_on_darwin_witness :
  add_user (Sys := mac_system) (authenticator true None ∅) "river" (start linux)
  = (Raise (Exn ValueError "I don't know how to create users on OS X"), start linux).
Proof.
  refine (add_user_on_darwin (Sys := mac_system)
            (authenticator true None ∅) "river" (start linux)
            ("getpwnam(): name not found: '" +:+ "river" +:+ "'") _ _ _ _);
    reflexivity.
Defined.

Lemma add_user_success_witness :
  base_add_user_calls [EvBaseAddUser "alice"] = [] ++ ["alice"]
  ∧ (∃ h, base_add_user "alice" [] = (Ok tt, h) ∧ ["alice"] = h)
  ∧ (((∃ entry, lookup_account "alice" linux = Ok entry) ∧ linux = linux)
     ∨ ((∃ msg, lookup_account "alice" linux = Raise (Exn KeyError msg))
        ∧ false = true
        ∧ ∃ template output,
            get_add_user_cmd (authenticator false None ∅) (start linux)
            = (Ok template, start linux)
            ∧ run (creation_command template "alice") linux
              = (Ok (0%Z, output), linux))).
Proof.
  refine (add_user_success (authenticator false None ∅) "alice" (start linux)
            (MkWorld linux ["alice"] [EvBaseAddUser "alice"]) _).
  vm_compute. reflexivity.
Defined.

(** A host that refuses [river]: the account is made all the same. *)
Lemma add_user_no_rollback_witness :
  ∃ w',
    add_user (Hub := Faults.hub [] [] ["river"])
      (authenticator true None ∅) "river" (start linux)
    = (Raise (Exn ValueError ("Invalid username: " +:+ "river")), w')
    ∧ w_os w'
      = (run (creation_command
                ["adduser"; "-q"; "--gecos"; PyStr.two_dquotes; "--disabled-password"]
                "river") linux).2
    ∧ commands_run (w_trace w')
      = [] ++
        [creation_command
           ["adduser"; "-q"; "--gecos"; PyStr.two_dquotes; "--disabled-password"]
           "river"].
Proof.
  refine (add_user_no_rollback (Hub := Faults.hub [] [] ["river"])
            (authenticator true None ∅) "river" (start linux)
            ("getpwnam(): name not found: '" +:+ "river" +:+ "'")
            ["adduser"; "-q"; "--gecos"; PyStr.two_dquotes; "--disabled-password"]
            EmptyString
            (run (creation_command
                    ["adduser"; "-q"; "--gecos"; PyStr.two_dquotes;
                     "--disabled-password"] "river") linux).2
            (Exn ValueError ("Invalid username: " +:+ "river")) []
            _ _ _ _ _); reflexivity.
Defined.

Lemma add_user_again_runs_nothing_witness :
  commands_run
    (w_trace
       ((add_user (authenticator true None ∅) "river";;
         add_user (authenticator true None ∅) "river") (start linux)).2)
  = [] ++
    [creation_command
       ["adduser"; "-q"; "--gecos"; PyStr.two_dquotes; "--disabled-password"]
       "river"].
Proof.
  refine (add_user_again_runs_nothing
            (authenticator true None ∅) "river" (start linux)
            ("getpwnam(): name not found: '" +:+ "river" +:+ "'")
            ["adduser"; "-q"; "--gecos"; PyStr.two_dquotes; "--disabled-password"]
            EmptyString
            (run (creation_command
                    ["adduser"; "-q"; "--gecos"; PyStr.two_dquotes;
                     "--disabled-password"] "river") linux).2
            {| pw_name := "river"; pw_uid := 1000 |}
            _ _ _ _ _); reflexivity.
Defined.

Lemma default_command_appends_name_witness :
  ∃ template,
    get_add_user_cmd (Host := list string) (User := string)
      (authenticator true None ∅) (start linux)
    = (Ok template, start linux)
    ∧ ∀ name, creation_command template name = template ++ [name].
Proof.
  refine (default_command_appends_name (Host := list string) (User := string)
            (authenticator true None ∅) (start linux) _ _);
    [reflexivity | discriminate].
Defined.

Lemma replace_without_occurrence_witness :
  PyStr.replace "USERNAME" "river" "--disabled-password" = "--disabled-password".
Proof.
  refine (replace_without_occurrence "USERNAME" "river" "--disabled-password" _ _).
  - discriminate.
  - apply occursb_false. reflexivity.
Defined.

Lemma replace_after_clean_prefix_witness :
  PyStr.replace (String "U" "SERNAME") "river"
    ("/customhome/" +:+ String "U" "SERNAME" +:+ "/work")
  = "/customhome/" +:+ "river" +:+ PyStr.replace (String "U" "SERNAME") "river" "/work".
Proof.
  refine (replace_after_clean_prefix "U" "SERNAME" "river" "/customhome/" "/work" _).
  reflexivity.
Defined.

End FurtherScenarios.
